(** * RecaptchaSolver: a shallow embedding of [src/RecaptchaSolver.py]

    The solver drives a browser page through the Playwright API, downloads
    an audio clip, has it transcribed and types the answer back.  Every
    operation of the class is a sequence of calls to collaborators the
    repository does not implement (the page, the file system, the speech
    recogniser).  The embedding keeps the code of the class as it is written
    and quantifies over the collaborators: a [World] answers each call from
    the state it is made in, and each call is logged in a trace, so that
    what the solver did, and in which order, can be stated and proved. *)

From Stdlib Require Import ZArith NArith String Ascii List DecimalString.
From stdpp Require Import base option list gmap sets strings.

Open Scope Z_scope.

(** ** Python values *)

(** Exception classes.  [PyException] is the builtin class [Exception]
    itself, the only one the solver raises; [PyOSError] stands for
    [OSError] and its subclasses; [PyLibError] for the errors of the
    libraries (Playwright's [Error] and [TimeoutError], the recogniser's
    [UnknownValueError], ...); these three derive from [Exception].
    [PyBaseOnly] stands for the classes that derive from [BaseException]
    but not from [Exception]: [asyncio.CancelledError], raised at an
    [await] when the running coroutine is cancelled, [KeyboardInterrupt],
    [SystemExit]. *)
Inductive pyclass : Type :=
| PyException
| PyOSError
| PyLibError (name : string)
| PyBaseOnly (name : string).

(** An exception instance; [exn_msg] is what [str(e)] returns. *)
Record exn : Type := Exn { exn_class : pyclass; exn_msg : string }.

(** [isinstance(e, OSError)] *)
Definition isinstance_OSError (e : exn) : bool :=
  match exn_class e with
  | PyOSError => true
  | _ => false
  end.

(** [isinstance(e, Exception)] *)
Definition isinstance_Exception (e : exn) : bool :=
  match exn_class e with
  | PyBaseOnly _ => false
  | _ => true
  end.

(** [Exception(msg)] *)
Definition Exception (msg : string) : exn := Exn PyException msg.

(** The outcome of a call: a value, or a raised exception. *)
Inductive result (A : Type) : Type :=
| Ok (a : A)
| Raise (e : exn).
Arguments Ok {A} a.
Arguments Raise {A} e.

(** Objects handed out by the collaborators; only their identity matters. *)
Inductive element : Type := Element (id : N).
Inductive frame : Type := Frame (id : N).
Inductive sound : Type := Sound (id : N).
Inductive audio : Type := Audio (id : N).

(** The [state=] argument of [wait_for_selector]; Playwright's default is
    ["visible"]. *)
Inductive wait_state : Type := StateVisible | StateAttached.

(** Strings are Python [str] values.  A string is ASCII when all its
    characters are below 128. *)
Fixpoint is_ascii (s : string) : bool :=
  match s with
  | EmptyString => true
  | String c s' => (N_of_ascii c <? 128)%N && is_ascii s'
  end.

(** [str.lower()] of an ASCII string: the letters [A]..[Z] are mapped to
    [a]..[z], every other character is kept. *)
Definition lower_ascii (c : ascii) : ascii :=
  let n := N_of_ascii c in
  if ((65 <=? n) && (n <=? 90))%N then ascii_of_N (n + 32) else c.

Fixpoint lower (s : string) : string :=
  match s with
  | EmptyString => EmptyString
  | String c s' => String (lower_ascii c) (lower s')
  end.

(** The f-string [f"{n}"] of a non-negative integer. *)
Definition str_of_N (n : N) : string := NilZero.string_of_uint (N.to_uint n).

(** [os.path.join(a, b)] for a relative [b], POSIX flavour. *)
Definition ends_with_slash (a : string) : bool :=
  match String.get (String.length a - 1) a with
  | Some "/"%char => true
  | _ => false
  end.

Definition os_path_join (a b : string) : string :=
  if (String.length a =? 0)%nat || ends_with_slash a then a +:+ b
  else a +:+ "/" +:+ b.

(** ** Class constants (lines 16-18) *)

Definition TIMEOUT_STANDARD : Z := 7000.
Definition TIMEOUT_SHORT : Z := 1000.
Definition TIMEOUT_DETECTION : Z := 50.

(** ** [get_selector] (lines 28-41) *)

Definition selectors : gmap string string :=
  list_to_map
    [ ("checkbox", ".rc-anchor-content");
      ("audio_challenge", "#recaptcha-audio-button");
      ("audio_response", "#audio-response");
      ("verify_button", "#recaptcha-verify-button");
      ("token", "#recaptcha-token");
      ("iframe", "iframe[title='reCAPTCHA']");
      ("challenge_frame", "iframe[title*='recaptcha challenge']");
      ("checkmark", ".recaptcha-checkbox-checkmark");
      ("error_message", "text='Try again later'");
      ("audio_source", "#audio-source") ].

(** [selectors.get(selector, "")] *)
Definition get_selector (selector : string) : string :=
  default "" (selectors !! selector).

(** The ten role names of the table. *)
Definition known_roles : list string :=
  [ "checkbox"; "audio_challenge"; "audio_response"; "verify_button";
    "token"; "iframe"; "challenge_frame"; "checkmark"; "error_message";
    "audio_source" ].

(** ** The collaborators *)

(** One constructor per call the solver makes, with the arguments of the
    call.  [timeout = None] is a call written without a [timeout=]
    argument. *)
Inductive event : Type :=
| EPageWaitForSelector (sel : string) (timeout : option Z)
| EContentFrame (h : element)
| EFrameWaitForSelector (f : frame) (sel : string) (timeout : option Z)
                        (st : wait_state)
| EFrameClick (f : frame) (sel : string)
| EFrameFill (f : frame) (sel : string) (value : string)
| EFrameQuerySelector (f : frame) (sel : string)
| EGetAttribute (h : element) (name : string)
| EIsVisible (h : element)
| EPageWaitForTimeout (ms : Z)
| ERandrange (lo hi : Z)
| EUrlretrieve (url path : string)
| EFromMp3 (path : string)
| EExport (snd : sound) (path : string)
| ERecord (path : string)
| ERecognizeGoogle (a : audio)
| EPathExists (path : string)
| ERemove (path : string).

(** What a run has done so far, in order, and the files that exist. *)
Record state : Type := State { trace : list event; fs : gset string }.

(** The environment of the solver.  Each field answers one kind of call
    from the state the call is made in (the trace tells it everything that
    happened before), so a [World] may stand for any page, however it
    changes while the solver runs.
    - [TEMP_DIR] is the class constant of line 15, read from the
      environment of the process;
    - [w_urlretrieve] and [w_export] also say which files exist afterwards;
    - [w_entropy] is the raw draw behind [random.randrange];
    - [w_os_remove_error] says whether removing an existing file fails, and
      with which [OSError] message;
    - [w_unicode_lower] is [str.lower()] on the strings that are not
      ASCII, where it follows the case tables of Unicode. *)
Record World : Type := {
  TEMP_DIR : string;
  w_page_wait_for_selector :
    state -> string -> option Z -> result (option element);
  w_content_frame : state -> element -> result (option frame);
  w_frame_wait_for_selector :
    state -> frame -> string -> option Z -> wait_state ->
    result (option element);
  w_frame_click : state -> frame -> string -> result unit;
  w_frame_fill : state -> frame -> string -> string -> result unit;
  w_frame_query_selector : state -> frame -> string -> result (option element);
  w_get_attribute : state -> element -> string -> result (option string);
  w_is_visible : state -> element -> result bool;
  w_page_wait_for_timeout : state -> Z -> result unit;
  w_entropy : state -> N;
  w_urlretrieve : state -> string -> string -> gset string * result unit;
  w_from_mp3 : state -> string -> result sound;
  w_export : state -> sound -> string -> gset string * result unit;
  w_record : state -> string -> result audio;
  w_recognize_google : state -> audio -> result string;
  w_os_remove_error : state -> string -> option string;
  w_unicode_lower : string -> string
}.

(** [text.lower()] *)
Definition py_lower (w : World) (text : string) : string :=
  if is_ascii text then lower text else w_unicode_lower w text.

(** ** Computations: state passing with exceptions *)

Definition M (A : Type) : Type := state -> result A * state.

Definition ret {A : Type} (a : A) : M A := fun s => (Ok a, s).

Definition raise {A : Type} (e : exn) : M A := fun s => (Raise e, s).

Definition bind {A B : Type} (m : M A) (k : A -> M B) : M B :=
  fun s =>
    match m s with
    | (Ok a, s') => k a s'
    | (Raise e, s') => (Raise e, s')
    end.

Notation "x <- m ;; k" := (bind m (fun x => k))
  (at level 100, m at next level, right associativity).
Notation "m ;;; k" := (bind m (fun _ => k))
  (at level 100, right associativity).

(** [try: m except C as e: h e], where [catches] is [isinstance(e, C)]; an
    exception that is no instance of [C] goes through. *)
Definition try_except {A : Type} (catches : exn -> bool)
    (m : M A) (h : exn -> M A) : M A :=
  fun s =>
    match m s with
    | (Ok a, s') => (Ok a, s')
    | (Raise e, s') => if catches e then h e s' else (Raise e, s')
    end.

(** [try: m finally: fin].  The outcome of [m], a value or an exception,
    is kept when [fin] ends normally, and replaced when [fin] raises. *)
Definition try_finally {A : Type} (m : M A) (fin : M unit) : M A :=
  fun s =>
    let (r, s') := m s in
    match fin s' with
    | (Ok _, s'') => (r, s'')
    | (Raise e, s'') => (Raise e, s'')
    end.

(** [for x in l: body x] *)
Fixpoint for_each {A : Type} (l : list A) (body : A -> M unit) : M unit :=
  match l with
  | [] => ret tt
  | x :: l' => body x ;;; for_each l' body
  end.

Definition log (e : event) (s : state) : state :=
  State (trace s ++ [e]) (fs s).

(** A call that leaves the files alone. *)
Definition call {A : Type} (e : event) (answer : state -> result A) : M A :=
  fun s => (answer s, log e s).

(** A call that may write files. *)
Definition call_fs {A : Type} (e : event)
    (answer : state -> gset string * result A) : M A :=
  fun s => let (files, r) := answer s in (r, State (trace s ++ [e]) files).

(** ** The solver *)

Section Solver.

(** The world the solver's page, file system and libraries live in. *)
Variable w : World.

(** *** The calls of the Playwright API, of [os], [random], [urllib],
    [pydub] and [speech_recognition] *)

Definition page_wait_for_selector (sel : string) (timeout : option Z)
  : M (option element) :=
  call (EPageWaitForSelector sel timeout)
       (fun s => w_page_wait_for_selector w s sel timeout).

Definition content_frame (h : element) : M (option frame) :=
  call (EContentFrame h) (fun s => w_content_frame w s h).

Definition frame_wait_for_selector (f : frame) (sel : string)
    (timeout : option Z) (st : wait_state) : M (option element) :=
  call (EFrameWaitForSelector f sel timeout st)
       (fun s => w_frame_wait_for_selector w s f sel timeout st).

Definition frame_click (f : frame) (sel : string) : M unit :=
  call (EFrameClick f sel) (fun s => w_frame_click w s f sel).

Definition frame_fill (f : frame) (sel value : string) : M unit :=
  call (EFrameFill f sel value) (fun s => w_frame_fill w s f sel value).

Definition frame_query_selector (f : frame) (sel : string)
  : M (option element) :=
  call (EFrameQuerySelector f sel) (fun s => w_frame_query_selector w s f sel).

Definition get_attribute (h : element) (name : string) : M (option string) :=
  call (EGetAttribute h name) (fun s => w_get_attribute w s h name).

Definition is_visible (h : element) : M bool :=
  call (EIsVisible h) (fun s => w_is_visible w s h).

Definition page_wait_for_timeout (ms : Z) : M unit :=
  call (EPageWaitForTimeout ms) (fun s => w_page_wait_for_timeout w s ms).

(** [random.randrange(lo, hi)]: some [n] with [lo <= n < hi]. *)
Definition randrange (lo hi : Z) : M Z :=
  call (ERandrange lo hi)
       (fun s => Ok (lo + Z.of_N (w_entropy w s) mod (hi - lo))).

Definition urlretrieve (url path : string) : M unit :=
  call_fs (EUrlretrieve url path) (fun s => w_urlretrieve w s url path).

Definition from_mp3 (path : string) : M sound :=
  call (EFromMp3 path) (fun s => w_from_mp3 w s path).

Definition export (snd : sound) (path : string) : M unit :=
  call_fs (EExport snd path) (fun s => w_export w s snd path).

(** [with AudioFile(path) as source: audio = recognizer.record(source)] *)
Definition record_audio_file (path : string) : M audio :=
  call (ERecord path) (fun s => w_record w s path).

Definition recognize_google (a : audio) : M string :=
  call (ERecognizeGoogle a) (fun s => w_recognize_google w s a).

(** [os.path.exists(path)]; it never raises. *)
Definition os_path_exists (path : string) : M bool :=
  call (EPathExists path) (fun s => Ok (bool_decide (path ∈ fs s))).

(** [os.remove(path)]: an [OSError] when the file is not there or cannot
    be removed, and otherwise the file is gone. *)
Definition os_remove (path : string) : M unit :=
  fun s =>
    if bool_decide (path ∈ fs s) then
      match w_os_remove_error w s path with
      | Some msg => (Raise (Exn PyOSError msg), log (ERemove path) s)
      | None => (Ok tt, State (trace s ++ [ERemove path]) (fs s ∖ {[path]}))
      end
    else (Raise (Exn PyOSError "No such file or directory"),
          log (ERemove path) s).

(** *** [_process_audio_challenge] (lines 109-138) *)

(** [os.path.join(self.TEMP_DIR, f"{n}.ext")] *)
Definition temp_path (n : Z) (ext : string) : string :=
  os_path_join (TEMP_DIR w) (str_of_N (Z.to_N n) +:+ ext).

(** The body of the [try] (lines 122-130). *)
Definition transcribe (audio_url mp3_path wav_path : string) : M string :=
  urlretrieve audio_url mp3_path ;;;
  sound <- from_mp3 mp3_path ;;
  export sound wav_path ;;;
  audio <- record_audio_file wav_path ;;
  recognize_google audio.

(** One round of the loop of the [finally] (lines 134-138). *)
Definition remove_if_exists (path : string) : M unit :=
  there <- os_path_exists path ;;
  if there then
    try_except isinstance_OSError (os_remove path) (fun _ => ret tt)
  else ret tt.

(** The [finally] block (lines 133-138). *)
Definition cleanup (mp3_path wav_path : string) : M unit :=
  for_each [mp3_path; wav_path] remove_if_exists.

Definition _process_audio_challenge (audio_url : string) : M string :=
  n1 <- randrange 1 1000 ;;
  let mp3_path := temp_path n1 ".mp3" in
  n2 <- randrange 1 1000 ;;
  let wav_path := temp_path n2 ".wav" in
  try_finally (transcribe audio_url mp3_path wav_path)
              (cleanup mp3_path wav_path).

(** *** [is_solved] (lines 140-154) *)

Definition is_solved : M bool :=
  try_except isinstance_Exception
    (iframe <- page_wait_for_selector (get_selector "iframe")
                                      (Some TIMEOUT_SHORT) ;;
     match iframe with
     | None => ret false
     | Some iframe =>
       frame <- content_frame iframe ;;
       match frame with
       | None => ret false
       | Some frame =>
         checkmark <- frame_wait_for_selector
                        frame (get_selector "checkmark")
                        (Some TIMEOUT_SHORT) StateVisible ;;
         match checkmark with
         | None => ret false
         | Some checkmark =>
           style <- get_attribute checkmark "style" ;;
           ret (bool_decide (style <> None))
         end
       end
     end)
    (fun _ => ret false).

(** *** [is_detected] (lines 156-170) *)

Definition is_detected : M bool :=
  try_except isinstance_Exception
    (challenge_frame <- page_wait_for_selector
                          (get_selector "challenge_frame")
                          (Some TIMEOUT_DETECTION) ;;
     match challenge_frame with
     | None => ret false
     | Some challenge_frame =>
       frame <- content_frame challenge_frame ;;
       match frame with
       | None => ret false
       | Some frame =>
         error_message <- frame_query_selector
                            frame (get_selector "error_message") ;;
         match error_message with
         | None => ret false
         | Some error_message => is_visible error_message
         end
       end
     end)
    (fun _ => ret false).

(** *** [get_token] (lines 172-186) *)

Definition get_token : M (option string) :=
  try_except isinstance_Exception
    (challenge_frame <- page_wait_for_selector
                          (get_selector "challenge_frame") None ;;
     match challenge_frame with
     | None => ret None
     | Some challenge_frame =>
       frame <- content_frame challenge_frame ;;
       match frame with
       | None => ret None
       | Some frame =>
         token_element <- frame_wait_for_selector
                            frame (get_selector "token") None StateVisible ;;
         match token_element with
         | Some token_element => get_attribute token_element "value"
         | None => ret None
         end
       end
     end)
    (fun _ => ret None).

(** *** [solveCaptcha] (lines 43-107)

    The method is one straight sequence; it is cut here at the points
    where it consults [is_solved] and [is_detected] and where its [try]
    starts, so that the theorems can name those points. *)

(** Lines 50-61: enter the widget frame and click the checkbox. *)
Definition click_checkbox : M unit :=
  iframe_handle <- page_wait_for_selector (get_selector "iframe")
                                          (Some TIMEOUT_STANDARD) ;;
  match iframe_handle with
  | None => raise (Exception "Cannot find reCAPTCHA iframe")
  | Some iframe_handle =>
    frame <- content_frame iframe_handle ;;
    match frame with
    | None => raise (Exception "Cannot access iframe content")
    | Some frame =>
      frame_wait_for_selector frame (get_selector "checkbox")
                              (Some TIMEOUT_STANDARD) StateVisible ;;;
      frame_click frame (get_selector "checkbox")
    end
  end.

(** Lines 68-80: enter the challenge frame and ask for the audio
    challenge.  The frame is the one the rest of the method works in. *)
Definition open_audio_challenge : M frame :=
  challenge_frame <- page_wait_for_selector (get_selector "challenge_frame")
                                            (Some TIMEOUT_STANDARD) ;;
  match challenge_frame with
  | None => raise (Exception "Cannot find challenge iframe")
  | Some challenge_frame =>
    frame <- content_frame challenge_frame ;;
    match frame with
    | None => raise (Exception "Cannot access challenge iframe")
    | Some frame =>
      frame_wait_for_selector frame (get_selector "audio_challenge")
                              (Some TIMEOUT_STANDARD) StateVisible ;;;
      frame_click frame (get_selector "audio_challenge") ;;;
      page_wait_for_timeout 300 ;;;
      ret frame
    end
  end.

(** Lines 87-98: find the audio clip and have it transcribed.  The test
    [not audio_source] holds of [None] and of the empty string. *)
Definition fetch_transcription (frame : frame) : M string :=
  audio_element <- frame_wait_for_selector
                     frame (get_selector "audio_source")
                     (Some TIMEOUT_STANDARD) StateAttached ;;
  match audio_element with
  | None => raise (Exception "Cannot find audio source element")
  | Some audio_element =>
    audio_source <- get_attribute audio_element "src" ;;
    match audio_source with
    | None | Some "" => raise (Exception "Audio source URL not found")
    | Some url => _process_audio_challenge url
    end
  end.

(** Lines 99-104: type the answer, submit it, check the outcome. *)
Definition submit_response (frame : frame) (text_response : string)
  : M unit :=
  frame_fill frame (get_selector "audio_response")
             (py_lower w text_response) ;;;
  frame_click frame (get_selector "verify_button") ;;;
  page_wait_for_timeout 400 ;;;
  solved <- is_solved ;;
  if solved then ret tt
  else raise (Exception "Failed to solve the captcha").

(** Lines 87-104: the body of the [try]. *)
Definition audio_attempt (frame : frame) : M unit :=
  text_response <- fetch_transcription frame ;;
  submit_response frame text_response.

(** Line 107: [Exception(f"Audio challenge failed: {str(e)}")] *)
Definition AudioChallengeFailed (e : exn) : exn :=
  Exception ("Audio challenge failed: " +:+ exn_msg e).

Definition solveCaptcha : M unit :=
  click_checkbox ;;;
  solved <- is_solved ;;
  if solved then ret tt
  else
    frame <- open_audio_challenge ;;
    detected <- is_detected ;;
    if detected then raise (Exception "Captcha detected bot behavior")
    else
      try_except isinstance_Exception
        (audio_attempt frame)
        (fun e => raise (AudioChallengeFailed e)).

End Solver.

(** ** Program points

    The states in which [is_solved] and [is_detected] put their questions
    to the world: each one is the starting state with the calls made so far
    logged. *)

Definition init : state := State [] ∅.

Definition solved_at_frame (s : state) : state :=
  log (EPageWaitForSelector (get_selector "iframe") (Some TIMEOUT_SHORT)) s.

Definition solved_at_checkmark (s : state) (iframe : element) : state :=
  log (EContentFrame iframe) (solved_at_frame s).

Definition solved_at_style (s : state) (iframe : element) (fr : frame)
  : state :=
  log (EFrameWaitForSelector fr (get_selector "checkmark")
         (Some TIMEOUT_SHORT) StateVisible)
      (solved_at_checkmark s iframe).




(** A lookup that did not produce its object: the call answered [None],
    or raised an instance of [Exception] (a timeout, a detached frame,
    ...). *)
Definition lookup_failed {A : Type} (r : result (option A)) : Prop :=
  match r with
  | Ok (Some _) => False
  | Ok None => True
  | Raise e => isinstance_Exception e = true
  end.

(** ** A scripted page

    A world in the shape of the real widget, used to run the solver on
    concrete pages.  The knobs say how the page reacts; the answers depend
    on what the solver has done so far (the checkmark gets its [style]
    attribute once a click has solved the challenge). *)

Record knobs : Type := {
  k_widget_present : bool;      (* the outer frame shows up *)
  k_solved_by_click : bool;     (* the checkbox click alone solves it *)
  k_detected : bool;            (* "Try again later" is shown *)
  k_src : option string;        (* the [src] of the audio element *)
  k_transcript : result string; (* what the recogniser answers *)
  k_solved_by_verify : bool;    (* the typed answer is accepted *)
  k_remove_fails : bool         (* temporary files cannot be removed *)
}.

Definition clicked (sel : string) (s : state) : bool :=
  existsb (fun e => match e with
                    | EFrameClick _ sel' => String.eqb sel' sel
                    | _ => false
                    end) (trace s).

Definition timed_out {A : Type} : result A :=
  Raise (Exn (PyLibError "TimeoutError") "Timeout exceeded.").

Definition scripted (k : knobs) : World := {|
  TEMP_DIR := "/tmp";
  w_page_wait_for_selector := fun s sel _ =>
    if String.eqb sel (get_selector "iframe") then
      if k_widget_present k then Ok (Some (Element 1)) else timed_out
    else if String.eqb sel (get_selector "challenge_frame") then
      if clicked (get_selector "checkbox") s then Ok (Some (Element 2))
      else timed_out
    else timed_out;
  w_content_frame := fun _ h =>
    match h with
    | Element 1 => Ok (Some (Frame 1))
    | Element 2 => Ok (Some (Frame 2))
    | _ => Ok None
    end;
  w_frame_wait_for_selector := fun _ _ sel _ _ =>
    if String.eqb sel (get_selector "checkbox") then Ok (Some (Element 3))
    else if String.eqb sel (get_selector "checkmark") then Ok (Some (Element 4))
    else if String.eqb sel (get_selector "audio_challenge") then
      Ok (Some (Element 5))
    else if String.eqb sel (get_selector "audio_source") then
      Ok (Some (Element 6))
    else if String.eqb sel (get_selector "token") then Ok (Some (Element 7))
    else timed_out;
  w_frame_click := fun _ _ _ => Ok tt;
  w_frame_fill := fun _ _ _ _ => Ok tt;
  w_frame_query_selector := fun _ _ sel =>
    if k_detected k && String.eqb sel (get_selector "error_message")
    then Ok (Some (Element 8)) else Ok None;
  w_get_attribute := fun s h name =>
    match h with
    | Element 4 =>
      if String.eqb name "style"
         && ((k_solved_by_click k && clicked (get_selector "checkbox") s)
             || (k_solved_by_verify k
                 && clicked (get_selector "verify_button") s))
      then Ok (Some "") else Ok None
    | Element 6 => if String.eqb name "src" then Ok (k_src k) else Ok None
    | Element 7 => if String.eqb name "value" then Ok (Some "03AFcWeA")
                   else Ok None
    | _ => Ok None
    end;
  w_is_visible := fun _ _ => Ok true;
  w_page_wait_for_timeout := fun _ _ => Ok tt;
  w_entropy := fun s => (N.of_nat (length (trace s)) + 40)%N;
  w_urlretrieve := fun s _ path => ({[path]} ∪ fs s, Ok tt);
  w_from_mp3 := fun _ _ => Ok (Sound 1);
  w_export := fun s _ path => ({[path]} ∪ fs s, Ok tt);
  w_record := fun _ _ => Ok (Audio 1);
  w_recognize_google := fun _ _ => k_transcript k;
  w_os_remove_error := fun _ _ =>
    if k_remove_fails k then Some "Permission denied" else None;
  w_unicode_lower := fun text => text
|}.

(** The coroutine that runs the solver is cancelled: [asyncio] raises
    [CancelledError] at the [await] it is suspended in. *)
Definition CancelledError : exn := Exn (PyBaseOnly "CancelledError") "".

(** [base], except that the coroutine is cancelled as soon as [trigger] holds
    of the state: every call of the page that is awaited then raises
    [CancelledError]. *)
Definition cancel_when (trigger : state -> bool) (base : World) : World := {|
  TEMP_DIR := TEMP_DIR base;
  w_page_wait_for_selector := fun s sel t =>
    if trigger s then Raise CancelledError
    else w_page_wait_for_selector base s sel t;
  w_content_frame := fun s h =>
    if trigger s then Raise CancelledError else w_content_frame base s h;
  w_frame_wait_for_selector := fun s f sel t st =>
    if trigger s then Raise CancelledError
    else w_frame_wait_for_selector base s f sel t st;
  w_frame_click := fun s f sel =>
    if trigger s then Raise CancelledError else w_frame_click base s f sel;
  w_frame_fill := fun s f sel v =>
    if trigger s then Raise CancelledError else w_frame_fill base s f sel v;
  w_frame_query_selector := fun s f sel =>
    if trigger s then Raise CancelledError
    else w_frame_query_selector base s f sel;
  w_get_attribute := fun s h name =>
    if trigger s then Raise CancelledError
    else w_get_attribute base s h name;
  w_is_visible := fun s h =>
    if trigger s then Raise CancelledError else w_is_visible base s h;
  w_page_wait_for_timeout := fun s ms =>
    if trigger s then Raise CancelledError
    else w_page_wait_for_timeout base s ms;
  w_entropy := w_entropy base;
  w_urlretrieve := w_urlretrieve base;
  w_from_mp3 := w_from_mp3 base;
  w_export := w_export base;
  w_record := w_record base;
  w_recognize_google := w_recognize_google base;
  w_os_remove_error := w_os_remove_error base;
  w_unicode_lower := w_unicode_lower base
|}.

(** The demo page on a good day: the click is not enough, the audio
    challenge opens, the clip says "FireBall", the answer is accepted. *)
Definition audio_page : knobs := {|
  k_widget_present := true;
  k_solved_by_click := false;
  k_detected := false;
  k_src := Some "https://www.google.com/recaptcha/api2/payload/audio.mp3";
  k_transcript := Ok "FireBall";
  k_solved_by_verify := true;
  k_remove_fails := false
|}.

(** The page once the checkbox click has solved the challenge: the
    checkmark carries [style=""]. *)
Definition solved_page : knobs := {|
  k_widget_present := true;
  k_solved_by_click := true;
  k_detected := false;
  k_src := None;
  k_transcript := Ok "";
  k_solved_by_verify := false;
  k_remove_fails := false
|}.

Definition after_click : state :=
  (click_checkbox (scripted solved_page) init).2.

(** ** What a computation logs

    [emits P m]: from every state, [m] only appends events to the trace,
    and every event it appends satisfies [P]. *)
Definition emits {A : Type} (P : event -> Prop) (m : M A) : Prop :=
  forall s, exists evs, trace (m s).2 = trace s ++ evs /\ Forall P evs.


(** A wait for an element carries one of the three timeouts of the class;
    a fixed pause is no longer than the short one. *)
Definition bounded_wait (e : event) : Prop :=
  match e with
  | EPageWaitForSelector _ t | EFrameWaitForSelector _ _ t _ =>
    t = Some TIMEOUT_STANDARD \/ t = Some TIMEOUT_SHORT \/
    t = Some TIMEOUT_DETECTION
  | EPageWaitForTimeout ms => 0 <= ms <= TIMEOUT_SHORT
  | _ => True
  end.

(** A wait carries no timeout at all. *)
Definition untimed_wait (e : event) : Prop :=
  match e with
  | EPageWaitForSelector _ t | EFrameWaitForSelector _ _ t _ => t = None
  | _ => True
  end.

(** ** Program points of [_process_audio_challenge]

    The two paths the step chooses when started in [s], and the state in
    which its [try] block starts. *)

Definition mp3_path_of (w : World) (s : state) : string :=
  temp_path w (1 + Z.of_N (w_entropy w s) mod (1000 - 1)) ".mp3".

Definition wav_path_of (w : World) (s : state) : string :=
  temp_path w
    (1 + Z.of_N (w_entropy w (log (ERandrange 1 1000) s)) mod (1000 - 1))
    ".wav".

Definition paths_chosen (s : state) : state :=
  log (ERandrange 1 1000) (log (ERandrange 1 1000) s).

(** What one attempt to delete [path] logs when the files are [files]: the
    test of line 134 and, when the file is there, the call of line 136. *)
Definition deletion_attempt (path : string) (files : gset string)
  : list event :=
  EPathExists path ::
  (if bool_decide (path ∈ files) then [ERemove path] else []).

(** ** Kinds of events *)

(** The calls made by the transcription step, and by nothing else. *)
Definition transcription_event (e : event) : bool :=
  match e with
  | ERandrange _ _ | EUrlretrieve _ _ | EFromMp3 _ | EExport _ _
  | ERecord _ | ERecognizeGoogle _ | EPathExists _ | ERemove _ => true
  | _ => false
  end.

(** Locating the audio element or reading its source URL. *)
Definition audio_source_event (e : event) : bool :=
  match e with
  | EFrameWaitForSelector _ sel _ _ =>
    String.eqb sel (get_selector "audio_source")
  | EFrameQuerySelector _ sel => String.eqb sel (get_selector "audio_source")
  | EGetAttribute _ name => String.eqb name "src"
  | _ => false
  end.

(** Locating the challenge frame or clicking the audio button. *)
Definition challenge_event (e : event) : bool :=
  match e with
  | EPageWaitForSelector sel _ =>
    String.eqb sel (get_selector "challenge_frame")
  | EFrameClick _ sel => String.eqb sel (get_selector "audio_challenge")
  | _ => false
  end.

(** No part of the audio path. *)
Definition off_audio_path (e : event) : Prop :=
  transcription_event e = false /\ audio_source_event e = false /\
  challenge_event e = false.

(** Neither the audio element nor the transcription. *)
Definition before_audio_source (e : event) : Prop :=
  transcription_event e = false /\ audio_source_event e = false.

(** The page on which "Try again later" shows up once the audio challenge
    is requested. *)
Definition blocked_page : knobs := {|
  k_widget_present := true;
  k_solved_by_click := false;
  k_detected := true;
  k_src := Some "https://www.google.com/recaptcha/api2/payload/audio.mp3";
  k_transcript := Ok "fireball";
  k_solved_by_verify := true;
  k_remove_fails := false
|}.

(** The recogniser cannot make out the clip. *)
Definition garbled_page : knobs := {|
  k_widget_present := true;
  k_solved_by_click := false;
  k_detected := false;
  k_src := Some "https://www.google.com/recaptcha/api2/payload/audio.mp3";
  k_transcript := Raise (Exn (PyLibError "UnknownValueError") "");
  k_solved_by_verify := true;
  k_remove_fails := false
|}.

(** The clip says "fireball". *)
Definition fireball_page : knobs := {|
  k_widget_present := true;
  k_solved_by_click := false;
  k_detected := false;
  k_src := Some "https://www.google.com/recaptcha/api2/payload/audio.mp3";
  k_transcript := Ok "fireball";
  k_solved_by_verify := true;
  k_remove_fails := false
|}.

(** The temporary directory does not let files be removed. *)
Definition sticky_page : knobs := {|
  k_widget_present := true;
  k_solved_by_click := false;
  k_detected := false;
  k_src := Some "https://www.google.com/recaptcha/api2/payload/audio.mp3";
  k_transcript := Ok "fireball";
  k_solved_by_verify := true;
  k_remove_fails := true
|}.


(** ** Program points of [solveCaptcha] *)

(** [solveCaptcha], started in [s], has clicked the checkbox, found the
    challenge unsolved and requested the audio challenge in frame [fr]; it
    is in state [s3], about to call [is_detected] (line 82). *)
Definition reaches_detection_check
    (w : World) (s : state) (fr : frame) (s3 : state) : Prop :=
  exists s1 s2,
    click_checkbox w s = (Ok tt, s1) /\
    is_solved w s1 = (Ok false, s2) /\
    open_audio_challenge w s2 = (Ok fr, s3).

(** ... and [is_detected] has answered [False]: [solveCaptcha] is in state
    [s4], about to enter its [try] block (line 86). *)
Definition reaches_audio_attempt
    (w : World) (s : state) (fr : frame) (s4 : state) : Prop :=
  exists s3,
    reaches_detection_check w s fr s3 /\ is_detected w s3 = (Ok false, s4).

(** The states of the [try] block: after the wait for the audio element,
    after the read of its [src]; and, from the state [s7] in which the
    transcription has returned, after the fill, the click and the pause. *)
Definition at_src_read (s4 : state) (fr : frame) : state :=
  log (EFrameWaitForSelector fr (get_selector "audio_source")
         (Some TIMEOUT_STANDARD) StateAttached) s4.

Definition at_transcription (s4 : state) (fr : frame) (el : element) : state :=
  log (EGetAttribute el "src") (at_src_read s4 fr).

Definition at_verify (w : World) (s7 : state) (fr : frame) (text : string)
  : state :=
  log (EFrameFill fr (get_selector "audio_response") (py_lower w text)) s7.

Definition at_pause (w : World) (s7 : state) (fr : frame) (text : string)
  : state :=
  log (EFrameClick fr (get_selector "verify_button"))
      (at_verify w s7 fr text).

Definition at_recheck (w : World) (s7 : state) (fr : frame) (text : string)
  : state :=
  log (EPageWaitForTimeout 400) (at_pause w s7 fr text).

(** The scripted run up to line 82 and up to line 86. *)
Definition before_detection (k : knobs) : state :=
  (open_audio_challenge (scripted k)
     (is_solved (scripted k) (click_checkbox (scripted k) init).2).2).2.

Definition before_attempt (k : knobs) : state :=
  (is_detected (scripted k) (before_detection k)).2.

(** ** Further program points and event kinds *)

(** The calls that only look at the page. *)
Definition read_only (e : event) : Prop :=
  match e with
  | EPageWaitForSelector _ _ | EContentFrame _
  | EFrameWaitForSelector _ _ _ _ | EFrameQuerySelector _ _
  | EGetAttribute _ _ | EIsVisible _ => True
  | _ => False
  end.

(** [inspects m]: [m] only looks at the page; it appends read-only calls to
    the trace and leaves the files as they are. *)
Definition inspects {A : Type} (m : M A) : Prop :=
  forall s, exists evs,
    (m s).2 = State (trace s ++ evs) (fs s) /\ Forall read_only evs.




(** The states of [solveCaptcha] before it clicks the checkbox (lines
    50-61), from its starting state [s]. *)
Definition widget_at_frame (s : state) : state :=
  log (EPageWaitForSelector (get_selector "iframe") (Some TIMEOUT_STANDARD)) s.

Definition widget_at_checkbox (s : state) (ih : element) : state :=
  log (EContentFrame ih) (widget_at_frame s).

Definition widget_at_click (s : state) (ih : element) (fr : frame) : state :=
  log (EFrameWaitForSelector fr (get_selector "checkbox")
         (Some TIMEOUT_STANDARD) StateVisible)
      (widget_at_checkbox s ih).

Definition widget_clicked (s : state) (ih : element) (fr : frame) : state :=
  log (EFrameClick fr (get_selector "checkbox")) (widget_at_click s ih fr).

(** [solveCaptcha], started in [s], has clicked the checkbox and found the
    challenge unsolved; it is in state [s2], about to look for the
    challenge frame (line 68). *)
Definition reaches_challenge (w : World) (s s2 : state) : Prop :=
  exists s1,
    click_checkbox w s = (Ok tt, s1) /\ is_solved w s1 = (Ok false, s2).

(** The states of lines 68-80, from [s2]. *)
Definition challenge_at_frame (s2 : state) : state :=
  log (EPageWaitForSelector (get_selector "challenge_frame")
         (Some TIMEOUT_STANDARD)) s2.

Definition challenge_at_button (s2 : state) (cf : element) : state :=
  log (EContentFrame cf) (challenge_at_frame s2).

Definition challenge_at_click (s2 : state) (cf : element) (fr : frame)
  : state :=
  log (EFrameWaitForSelector fr (get_selector "audio_challenge")
         (Some TIMEOUT_STANDARD) StateVisible)
      (challenge_at_button s2 cf).

Definition challenge_at_pause (s2 : state) (cf : element) (fr : frame)
  : state :=
  log (EFrameClick fr (get_selector "audio_challenge"))
      (challenge_at_click s2 cf fr).

Definition challenge_requested (s2 : state) (cf : element) (fr : frame)
  : state :=
  log (EPageWaitForTimeout 300) (challenge_at_pause s2 cf fr).

(** The widget is not on the page. *)
Definition blank_page : knobs := {|
  k_widget_present := false;
  k_solved_by_click := false;
  k_detected := false;
  k_src := None;
  k_transcript := Ok "";
  k_solved_by_verify := false;
  k_remove_fails := false
|}.

(** The good page, except that the challenge frame never comes: the lookup
    of line 68 answers [None]. *)
Definition no_challenge_world : World :=
  let base := scripted audio_page in {|
  TEMP_DIR := TEMP_DIR base;
  w_page_wait_for_selector := fun s sel t =>
    if String.eqb sel (get_selector "challenge_frame") then Ok None
    else w_page_wait_for_selector base s sel t;
  w_content_frame := w_content_frame base;
  w_frame_wait_for_selector := w_frame_wait_for_selector base;
  w_frame_click := w_frame_click base;
  w_frame_fill := w_frame_fill base;
  w_frame_query_selector := w_frame_query_selector base;
  w_get_attribute := w_get_attribute base;
  w_is_visible := w_is_visible base;
  w_page_wait_for_timeout := w_page_wait_for_timeout base;
  w_entropy := w_entropy base;
  w_urlretrieve := w_urlretrieve base;
  w_from_mp3 := w_from_mp3 base;
  w_export := w_export base;
  w_record := w_record base;
  w_recognize_google := w_recognize_google base;
  w_os_remove_error := w_os_remove_error base;
  w_unicode_lower := w_unicode_lower base
|}.

(** ** Program points of the [try] block of [_process_audio_challenge]

    From the state [s0] in which the block starts: after the download
    (which may have written files), after the decoding, after the export
    (which may have written files), after the recording. *)







(** The removals concern [mp3_path] or [wav_path] only. *)
Definition removes_only (mp3_path wav_path : string) (e : event) : Prop :=
  match e with
  | ERemove path => path = mp3_path \/ path = wav_path
  | _ => True
  end.

(** A state with a file of somebody else in the temporary directory. *)
Definition with_foreign_file : state := State [] {["/tmp/keep.txt"]}.

(** ** Counting calls *)

Definition is_fill (e : event) : bool :=
  match e with EFrameFill _ _ _ => true | _ => false end.

Definition is_download (e : event) : bool :=
  match e with EUrlretrieve _ _ => true | _ => false end.

Definition is_recognition (e : event) : bool :=
  match e with ERecognizeGoogle _ => true | _ => false end.

Definition count_events (p : event -> bool) (evs : list event) : nat :=
  length (List.filter p evs).

(** [emits_at_most p n m]: from every state, [m] only appends events to
    the trace, at most [n] of which satisfy [p]. *)
Definition emits_at_most {A : Type} (p : event -> bool) (n : nat) (m : M A)
  : Prop :=
  forall s, exists evs,
    trace (m s).2 = trace s ++ evs /\ (count_events p evs <= n)%nat.

(** [path] is a name the transcription step can choose: a number from 1 to
    999 with the extension [.mp3] or [.wav], in the temporary directory. *)
Definition temp_file (w : World) (path : string) : Prop :=
  exists n : Z,
    1 <= n < 1000 /\
    (path = temp_path w n ".mp3" \/ path = temp_path w n ".wav").

(** The removals concern such names only. *)
Definition removes_temp_only (w : World) (e : event) : Prop :=
  match e with
  | ERemove path => temp_file w path
  | _ => True
  end.

(** [keeps_files m]: from every state, [m] leaves the files as they
    are. *)
Definition keeps_files {A : Type} (m : M A) : Prop :=
  forall s, fs (m s).2 = fs s.

(** The good page, with the coroutine cancelled from the start. *)
Definition cancelled_world : World :=
  cancel_when (fun _ => true) (scripted audio_page).


(** * Theorems *)


(** ** Running the definitions *)

Arguments get_selector : simpl never.

Ltac unfold_api :=
  unfold page_wait_for_selector, content_frame, frame_wait_for_selector,
    frame_click, frame_fill, frame_query_selector, get_attribute, is_visible,
    page_wait_for_timeout, randrange, urlretrieve, from_mp3, export,
    record_audio_file, recognize_google, os_path_exists in *.

Ltac unfold_monad :=
  unfold try_except, try_finally, bind, ret, raise, call, call_fs in *.

(** Close the cases in which a run cannot have the outcome assumed. *)
Ltac impossible_run :=
  simpl;
  try (let H := fresh in intros H; discriminate H);
  try (destruct (isinstance_Exception _); simpl;
       let H := fresh in intros H; discriminate H).

(** Case analysis on the next answer of the world. *)
Ltac next_answer :=
  match goal with
  | |- context [match ?x with _ => _ end] =>
    match x with
    | context [match _ with _ => _ end] => fail 1
    | _ => destruct x eqn:?
    end
  end.

(** ** Rules for [emits] *)

Section Emits.

Context {A B : Type} (P : event -> Prop).

Lemma emits_ret (a : A) : emits P (ret a).
Proof. intros s. exists []. simpl. rewrite app_nil_r. auto. Qed.

Lemma emits_raise (e : exn) : emits P (raise e : M A).
Proof. intros s. exists []. simpl. rewrite app_nil_r. auto. Qed.

Lemma emits_call (e : event) (answer : state -> result A) :
  P e -> emits P (call e answer).
Proof. intros He s. exists [e]. simpl. auto. Qed.

Lemma emits_call_fs (e : event)
    (answer : state -> gset string * result A) :
  P e -> emits P (call_fs e answer).
Proof.
  intros He s. exists [e]. unfold call_fs.
  destruct (answer s). simpl. auto.
Qed.

Lemma emits_bind (m : M A) (k : A -> M B) :
  emits P m -> (forall a, emits P (k a)) -> emits P (bind m k).
Proof.
  intros Hm Hk s. unfold bind.
  destruct (Hm s) as (evs & Htr & Hevs).
  destruct (m s) as [[a|e] s']; simpl in *.
  - destruct (Hk a s') as (evs' & Htr' & Hevs').
    exists (evs ++ evs'). rewrite Htr', Htr, app_assoc.
    split; [reflexivity|]. apply Forall_app; auto.
  - exists evs. auto.
Qed.

Lemma emits_try_except (catches : exn -> bool) (m : M A) (h : exn -> M A) :
  emits P m -> (forall e, emits P (h e)) -> emits P (try_except catches m h).
Proof.
  intros Hm Hh s. unfold try_except.
  destruct (Hm s) as (evs & Htr & Hevs).
  destruct (m s) as [[a|e] s']; simpl in *.
  - exists evs. auto.
  - destruct (catches e); [|exists evs; auto].
    destruct (Hh e s') as (evs' & Htr' & Hevs').
    exists (evs ++ evs'). rewrite Htr', Htr, app_assoc.
    split; [reflexivity|]. apply Forall_app; auto.
Qed.

Lemma emits_try_finally (m : M A) (fin : M unit) :
  emits P m -> emits P fin -> emits P (try_finally m fin).
Proof.
  intros Hm Hfin s. unfold try_finally.
  destruct (Hm s) as (evs & Htr & Hevs).
  destruct (m s) as [r s']; simpl in *.
  destruct (Hfin s') as (evs' & Htr' & Hevs').
  exists (evs ++ evs'). rewrite app_assoc, <- Htr, <- Htr'.
  split; [|apply Forall_app; auto].
  destruct (fin s') as [[[]|e] s'']; reflexivity.
Qed.

Lemma emits_for_each (l : list A) (body : A -> M unit) :
  (forall x, emits P (body x)) -> emits P (for_each l body).
Proof.
  intros Hbody. induction l as [|x l IH]; simpl.
  - intros s. exists []. simpl. rewrite app_nil_r. auto.
  - intros s. unfold bind.
    destruct (Hbody x s) as (evs & Htr & Hevs).
    destruct (body x s) as [[[]|e] s']; simpl in *.
    + destruct (IH s') as (evs' & Htr' & Hevs').
      exists (evs ++ evs'). rewrite Htr', Htr, app_assoc.
      split; [reflexivity|]. apply Forall_app; auto.
    + exists evs. auto.
Qed.

End Emits.

Lemma emits_os_remove (P : event -> Prop) (w : World) (path : string) :
  P (ERemove path) -> emits P (os_remove w path).
Proof.
  intros HP s. exists [ERemove path]. unfold os_remove.
  destruct (bool_decide _); [destruct (w_os_remove_error _ _ _)|];
    simpl; auto.
Qed.

(** Decompose a computation along its structure, leaving one goal per
    call: that the event of the call satisfies the predicate. *)
Ltac emits_step :=
  match goal with
  | |- emits _ (bind _ _) => apply emits_bind; [|intros ?]
  | |- emits _ (try_except _ _ _) => apply emits_try_except; [|intros ?]
  | |- emits _ (try_finally _ _) => apply emits_try_finally
  | |- emits _ (for_each _ _) => apply emits_for_each; intros ?
  | |- emits _ (ret _) => apply emits_ret
  | |- emits _ (raise _) => apply emits_raise
  | |- emits _ (call _ _) => apply emits_call
  | |- emits _ (call_fs _ _) => apply emits_call_fs
  | |- emits _ (os_remove _ _) => apply emits_os_remove
  | |- emits _ (match ?x with _ => _ end) => destruct x
  | |- emits _ (if ?x then _ else _) => destruct x
  end.

(** ** [is_solved] *)

Lemma is_solved_cases (w : World) (s : state) :
  (is_solved w s).1 = Ok true \/ (is_solved w s).1 = Ok false \/
  exists e, (is_solved w s).1 = Raise e /\ isinstance_Exception e = false.
Proof.
  unfold is_solved. unfold_api. unfold_monad.
  repeat (simpl; try next_answer); simpl; eauto.
  case_bool_decide; auto.
Qed.

(** C7, as stated, fails: [is_solved] does raise.  When the coroutine
    is cancelled, the lookup of the outer frame raises
    [asyncio.CancelledError], which is no instance of [Exception]: the
    handler of line 153 lets it through. *)
Lemma is_solved_cancelled_counterexample :
  ~ (forall (w : World) (s : state), exists b, (is_solved w s).1 = Ok b).
Proof.
  intros Hclaim. destruct (Hclaim cancelled_world init) as (b & Hb).
  vm_compute in Hb. discriminate Hb.
Qed.

(** C7, amended.  [is_solved] never raises an instance of [Exception]:
    it returns a boolean, or lets through an exception that is no instance
    of [Exception].  It returns [False] whenever one of its lookups fails
    by answering [None] or by raising an instance of [Exception]: the
    outer frame does not show up within the short timeout, its content
    cannot be entered, the checkmark is not found, or reading the
    attribute raises or finds nothing.  An exception outside [Exception]
    raised by one of the four calls leaves [is_solved] as it is. *)
Theorem is_solved_catches_exceptions (w : World) (s : state) :
  ((exists b, (is_solved w s).1 = Ok b) \/
   (exists e, (is_solved w s).1 = Raise e /\ isinstance_Exception e = false)) /\
  (lookup_failed (w_page_wait_for_selector w s (get_selector "iframe")
                    (Some TIMEOUT_SHORT)) ->
   (is_solved w s).1 = Ok false) /\
  (forall e,
     w_page_wait_for_selector w s (get_selector "iframe")
       (Some TIMEOUT_SHORT) = Raise e ->
     isinstance_Exception e = false ->
     (is_solved w s).1 = Raise e) /\
  (forall iframe,
     w_page_wait_for_selector w s (get_selector "iframe")
       (Some TIMEOUT_SHORT) = Ok (Some iframe) ->
     (lookup_failed (w_content_frame w (solved_at_frame s) iframe) ->
      (is_solved w s).1 = Ok false) /\
     (forall e,
        w_content_frame w (solved_at_frame s) iframe = Raise e ->
        isinstance_Exception e = false ->
        (is_solved w s).1 = Raise e)) /\
  (forall iframe fr,
     w_page_wait_for_selector w s (get_selector "iframe")
       (Some TIMEOUT_SHORT) = Ok (Some iframe) ->
     w_content_frame w (solved_at_frame s) iframe = Ok (Some fr) ->
     (lookup_failed (w_frame_wait_for_selector w (solved_at_checkmark s iframe)
                       fr (get_selector "checkmark") (Some TIMEOUT_SHORT)
                       StateVisible) ->
      (is_solved w s).1 = Ok false) /\
     (forall e,
        w_frame_wait_for_selector w (solved_at_checkmark s iframe)
          fr (get_selector "checkmark") (Some TIMEOUT_SHORT) StateVisible
        = Raise e ->
        isinstance_Exception e = false ->
        (is_solved w s).1 = Raise e)) /\
  (forall iframe fr checkmark,
     w_page_wait_for_selector w s (get_selector "iframe")
       (Some TIMEOUT_SHORT) = Ok (Some iframe) ->
     w_content_frame w (solved_at_frame s) iframe = Ok (Some fr) ->
     w_frame_wait_for_selector w (solved_at_checkmark s iframe)
       fr (get_selector "checkmark") (Some TIMEOUT_SHORT) StateVisible
     = Ok (Some checkmark) ->
     (lookup_failed (w_get_attribute w (solved_at_style s iframe fr)
                       checkmark "style") ->
      (is_solved w s).1 = Ok false) /\
     (forall e,
        w_get_attribute w (solved_at_style s iframe fr) checkmark "style"
        = Raise e ->
        isinstance_Exception e = false ->
        (is_solved w s).1 = Raise e)).
Proof.
  split; [destruct (is_solved_cases w s) as [H|[H|H]]; eauto|].
  unfold is_solved, solved_at_style, solved_at_checkmark, solved_at_frame.
  unfold_api. unfold_monad.
  split; [|split; [|split; [|split]]].
  - intros Hfail. simpl.
    destruct (w_page_wait_for_selector _ _ _ _) as [[?|]|e]; simpl in *;
      [contradiction|reflexivity|rewrite Hfail; reflexivity].
  - intros e -> He. simpl. rewrite He. reflexivity.
  - intros iframe ->. simpl. split.
    + intros Hfail.
      destruct (w_content_frame _ _ _) as [[?|]|e]; simpl in *;
        [contradiction|reflexivity|rewrite Hfail; reflexivity].
    + intros e -> He. simpl. rewrite He. reflexivity.
  - intros iframe fr -> Hfr. simpl. rewrite Hfr. simpl. split.
    + intros Hfail.
      destruct (w_frame_wait_for_selector _ _ _ _ _ _) as [[?|]|e];
        simpl in *; [contradiction|reflexivity|rewrite Hfail; reflexivity].
    + intros e -> He. simpl. rewrite He. reflexivity.
  - intros iframe fr checkmark -> Hfr Hck. simpl. rewrite Hfr. simpl.
    rewrite Hck. simpl. split.
    + intros Hfail.
      destruct (w_get_attribute _ _ _ _) as [[?|]|e]; simpl in *;
        [contradiction|reflexivity|rewrite Hfail; reflexivity].
    + intros e -> He. simpl. rewrite He. reflexivity.
Qed.

(** The widget never shows up: every lookup of the outer frame times out
    with Playwright's [TimeoutError], and [is_solved] answers [False]. *)
Lemma is_solved_catches_exceptions_witness :
  let w := scripted {| k_widget_present := false; k_solved_by_click := true;
                       k_detected := false; k_src := None;
                       k_transcript := Ok ""; k_solved_by_verify := true;
                       k_remove_fails := false |} in
  lookup_failed (w_page_wait_for_selector w init (get_selector "iframe")
                   (Some TIMEOUT_SHORT)) /\
  (is_solved w init).1 = Ok false.
Proof.
  intros w. assert (Hfail : lookup_failed
    (w_page_wait_for_selector w init (get_selector "iframe")
       (Some TIMEOUT_SHORT))) by (vm_compute; reflexivity).
  split; [exact Hfail|].
  exact (proj1 (proj2 (is_solved_catches_exceptions w init)) Hfail).
Defined.

(** C1, as stated, fails: it is not true that an empty [style] attribute
    makes [is_solved] return [False].  On the scripted page, after the
    click, the checkmark exists, its [style] attribute is the empty string,
    and [is_solved] returns [True]. *)
Lemma is_solved_empty_style_counterexample :
  ~ (forall (w : World) (s : state) iframe fr checkmark,
       w_page_wait_for_selector w s (get_selector "iframe")
         (Some TIMEOUT_SHORT) = Ok (Some iframe) ->
       w_content_frame w (solved_at_frame s) iframe = Ok (Some fr) ->
       w_frame_wait_for_selector w (solved_at_checkmark s iframe)
         fr (get_selector "checkmark") (Some TIMEOUT_SHORT) StateVisible
       = Ok (Some checkmark) ->
       w_get_attribute w (solved_at_style s iframe fr) checkmark "style"
       = Ok (Some "") ->
       (is_solved w s).1 = Ok false).
Proof.
  intros Hclaim.
  specialize (Hclaim (scripted solved_page) after_click
                (Element 1) (Frame 1) (Element 4)).
  assert (Htrue : (is_solved (scripted solved_page) after_click).1 = Ok true)
    by (vm_compute; reflexivity).
  rewrite Hclaim in Htrue; [discriminate| | | |]; vm_compute; reflexivity.
Qed.

(** C1, amended.  [is_solved] returns [True] exactly when the outer frame
    is found and entered, the checkmark element exists, and reading its
    [style] attribute yields a string, empty or not (the test is
    [is not None]); in particular it returns [True] when the checkmark
    exists and its [style] attribute is the empty string. *)
Theorem is_solved_iff_style_present (w : World) (s : state) :
  ((is_solved w s).1 = Ok true <->
   exists iframe fr checkmark style,
     w_page_wait_for_selector w s (get_selector "iframe")
       (Some TIMEOUT_SHORT) = Ok (Some iframe) /\
     w_content_frame w (solved_at_frame s) iframe = Ok (Some fr) /\
     w_frame_wait_for_selector w (solved_at_checkmark s iframe)
       fr (get_selector "checkmark") (Some TIMEOUT_SHORT) StateVisible
     = Ok (Some checkmark) /\
     w_get_attribute w (solved_at_style s iframe fr) checkmark "style"
     = Ok (Some style)) /\
  (forall iframe fr checkmark,
     w_page_wait_for_selector w s (get_selector "iframe")
       (Some TIMEOUT_SHORT) = Ok (Some iframe) ->
     w_content_frame w (solved_at_frame s) iframe = Ok (Some fr) ->
     w_frame_wait_for_selector w (solved_at_checkmark s iframe)
       fr (get_selector "checkmark") (Some TIMEOUT_SHORT) StateVisible
     = Ok (Some checkmark) ->
     w_get_attribute w (solved_at_style s iframe fr) checkmark "style"
     = Ok (Some "") ->
     (is_solved w s).1 = Ok true).
Proof.
  assert (Hif : forall iframe fr checkmark style,
     w_page_wait_for_selector w s (get_selector "iframe")
       (Some TIMEOUT_SHORT) = Ok (Some iframe) ->
     w_content_frame w (solved_at_frame s) iframe = Ok (Some fr) ->
     w_frame_wait_for_selector w (solved_at_checkmark s iframe)
       fr (get_selector "checkmark") (Some TIMEOUT_SHORT) StateVisible
     = Ok (Some checkmark) ->
     w_get_attribute w (solved_at_style s iframe fr) checkmark "style"
     = Ok (Some style) ->
     (is_solved w s).1 = Ok true).
  { unfold is_solved, solved_at_style, solved_at_checkmark, solved_at_frame.
    unfold_api. unfold_monad.
    intros iframe fr checkmark style -> Hfr Hck Hst. simpl.
    rewrite Hfr. simpl. rewrite Hck. simpl. rewrite Hst. reflexivity. }
  split; [split|].
  - unfold is_solved, solved_at_style, solved_at_checkmark, solved_at_frame.
    unfold_api. unfold_monad. simpl.
    destruct (w_page_wait_for_selector _ _ _ _) as [[iframe|]|] eqn:H1;
      impossible_run.
    destruct (w_content_frame _ _ _) as [[fr|]|] eqn:H2;
      impossible_run.
    destruct (w_frame_wait_for_selector _ _ _ _ _ _) as [[checkmark|]|] eqn:H3;
      impossible_run.
    destruct (w_get_attribute _ _ _ _) as [[style|]|] eqn:H4;
      impossible_run.
    intros _. exists iframe, fr, checkmark, style. auto.
  - intros (iframe & fr & checkmark & style & H1 & H2 & H3 & H4). eauto.
  - intros iframe fr checkmark. eauto.
Qed.

(** On the scripted page, after the click, the [style] attribute is the
    empty string and [is_solved] returns [True]. *)
Lemma is_solved_iff_style_present_witness :
  w_get_attribute (scripted solved_page)
    (solved_at_style after_click (Element 1) (Frame 1)) (Element 4) "style"
  = Ok (Some "") /\
  (is_solved (scripted solved_page) after_click).1 = Ok true.
Proof.
  split; [vm_compute; reflexivity|].
  apply (proj2 (is_solved_iff_style_present (scripted solved_page) after_click)
           (Element 1) (Frame 1) (Element 4)); vm_compute; reflexivity.
Defined.

(** ** [is_detected] *)


(** ** [is_detected] *)






(** ** [get_selector] *)

(** C9. For every role name outside the ten known ones [get_selector]
    returns the empty string (it is a total function: nothing is raised);
    for each of the ten it returns the entry of the table, which is not
    empty. *)
Theorem get_selector_table :
  (forall role : string, role ∉ known_roles -> get_selector role = "") /\
  map get_selector known_roles =
    [ ".rc-anchor-content"; "#recaptcha-audio-button"; "#audio-response";
      "#recaptcha-verify-button"; "#recaptcha-token";
      "iframe[title='reCAPTCHA']"; "iframe[title*='recaptcha challenge']";
      ".recaptcha-checkbox-checkmark"; "text='Try again later'";
      "#audio-source" ] /\
  Forall (fun role => get_selector role <> "") known_roles.
Proof.
  split; [|split].
  - intros role Hrole. unfold get_selector, selectors.
    rewrite not_elem_of_list_to_map_1; [reflexivity|exact Hrole].
  - vm_compute. reflexivity.
  - unfold known_roles. repeat constructor; vm_compute; discriminate.
Qed.

(** ["submit"] is not a role of the table. *)
Lemma get_selector_table_witness :
  ("submit" ∉ known_roles) /\ get_selector "submit" = "".
Proof.
  assert (Hrole : "submit" ∉ known_roles).
  { unfold known_roles. rewrite !not_elem_of_cons.
    repeat (split; [discriminate|]). apply not_elem_of_nil. }
  split; [exact Hrole|].
  exact (proj1 get_selector_table "submit" Hrole).
Defined.

(** ** Timeouts *)

Lemma is_solved_emits_bounded (w : World) : emits bounded_wait (is_solved w).
Proof.
  unfold is_solved. unfold_api. repeat emits_step; simpl; auto.
Qed.

Lemma is_detected_emits_bounded (w : World) :
  emits bounded_wait (is_detected w).
Proof.
  unfold is_detected. unfold_api. repeat emits_step; simpl; auto.
Qed.

Lemma process_audio_emits (P : event -> Prop) (w : World) (url : string) :
  (forall e, transcription_event e = true -> P e) ->
  emits P (_process_audio_challenge w url).
Proof.
  intros HP. unfold _process_audio_challenge, transcribe, cleanup,
    remove_if_exists. unfold_api.
  repeat emits_step; apply HP; reflexivity.
Qed.

Lemma solveCaptcha_emits_bounded (w : World) :
  emits bounded_wait (solveCaptcha w).
Proof.
  unfold solveCaptcha, click_checkbox, open_audio_challenge, audio_attempt,
    fetch_transcription, submit_response.
  repeat first
    [ apply is_solved_emits_bounded
    | apply is_detected_emits_bounded
    | apply process_audio_emits; intros [] Hw; try discriminate Hw; exact I
    | emits_step ].
  all: unfold_api; try emits_step; simpl; auto.
  all: unfold TIMEOUT_SHORT; lia.
Qed.

Lemma get_token_emits_untimed (w : World) : emits untimed_wait (get_token w).
Proof.
  unfold get_token. unfold_api. repeat emits_step; simpl; auto.
Qed.

(** C10. The waits of [get_token] carry no timeout: its first call is the
    wait for the challenge frame, without a timeout, and every wait it
    issues (the one for the token field when the frame is entered) is
    without one.  Every wait for an element issued by [solveCaptcha],
    [is_solved] and [is_detected] carries one of the three class
    constants, which are 7000, 1000 and 50 (and the two fixed pauses of
    [solveCaptcha] are shorter than the short one). *)
Theorem get_token_waits_untimed :
  (TIMEOUT_STANDARD = 7000 /\ TIMEOUT_SHORT = 1000 /\ TIMEOUT_DETECTION = 50) /\
  (forall w, emits bounded_wait (solveCaptcha w)) /\
  (forall w, emits bounded_wait (is_solved w)) /\
  (forall w, emits bounded_wait (is_detected w)) /\
  (forall w, emits untimed_wait (get_token w)) /\
  (forall w s, exists evs,
     trace (get_token w s).2 =
       trace s ++
       EPageWaitForSelector (get_selector "challenge_frame") None :: evs) /\
  (forall w s cf fr,
     w_page_wait_for_selector w s (get_selector "challenge_frame") None
     = Ok (Some cf) ->
     w_content_frame w
       (log (EPageWaitForSelector (get_selector "challenge_frame") None) s) cf
     = Ok (Some fr) ->
     exists evs,
       trace (get_token w s).2 =
         trace s ++
         EPageWaitForSelector (get_selector "challenge_frame") None ::
         EContentFrame cf ::
         EFrameWaitForSelector fr (get_selector "token") None StateVisible ::
         evs).
Proof.
  split; [repeat split|].
  split; [exact solveCaptcha_emits_bounded|].
  split; [exact is_solved_emits_bounded|].
  split; [exact is_detected_emits_bounded|].
  split; [exact get_token_emits_untimed|].
  split.
  - intros w s. unfold get_token. unfold_api. unfold_monad.
    repeat (simpl; try next_answer); simpl;
      rewrite <- ?app_assoc; simpl; eauto.
  - intros w s cf fr Hcf Hfr. unfold get_token. unfold_api. unfold_monad.
    simpl. rewrite Hcf. simpl. rewrite Hfr.
    repeat (simpl; try next_answer); simpl;
      rewrite <- ?app_assoc; simpl; eauto.
Qed.

(** On the scripted page, once the checkbox is clicked, [get_token] finds
    the challenge frame and waits for the token field, both times without
    a timeout. *)
Lemma get_token_waits_untimed_witness :
  exists evs,
    trace (get_token (scripted solved_page) after_click).2 =
      trace after_click ++
      EPageWaitForSelector (get_selector "challenge_frame") None ::
      EContentFrame (Element 2) ::
      EFrameWaitForSelector (Frame 2) (get_selector "token") None
        StateVisible :: evs.
Proof.
  apply (proj2 (proj2 (proj2 (proj2 (proj2 (proj2
           get_token_waits_untimed)))))
           (scripted solved_page) after_click (Element 2) (Frame 2));
    vm_compute; reflexivity.
Defined.

(** ** [_process_audio_challenge] *)

(** One round of the clean-up loop: it never raises, it logs the attempt,
    it creates no file, and the file is still there afterwards only when
    [os.remove] failed on it. *)
Lemma remove_if_exists_spec (w : World) (path : string) (s : state) :
  (remove_if_exists w path s).1 = Ok tt /\
  trace (remove_if_exists w path s).2 =
    trace s ++ deletion_attempt path (fs s) /\
  fs (remove_if_exists w path s).2 ⊆ fs s /\
  (path ∈ fs (remove_if_exists w path s).2 ->
   w_os_remove_error w (log (EPathExists path) s) path <> None).
Proof.
  unfold remove_if_exists, os_remove, deletion_attempt. unfold_api.
  unfold_monad. simpl. unfold isinstance_OSError.
  destruct (bool_decide (path ∈ fs s)) eqn:Hin; simpl.
  - rewrite Hin.
    destruct (w_os_remove_error w _ path) eqn:Hrm; simpl;
      rewrite <- ?app_assoc; simpl.
    + repeat split; [set_solver|congruence].
    + repeat split.
      * apply subseteq_difference_l. reflexivity.
      * intros Hleft. apply elem_of_difference in Hleft as [_ Hne].
        exfalso. apply Hne, elem_of_singleton. reflexivity.
  - apply bool_decide_eq_false in Hin.
    repeat split; [set_solver|]. intros Hin'. contradiction.
Qed.

(** The step is its [try] block, started once the two paths are chosen,
    followed by the clean-up. *)
Lemma process_audio_challenge_unfold
    (w : World) (audio_url : string) (s : state) :
  _process_audio_challenge w audio_url s =
  try_finally
    (transcribe w audio_url (mp3_path_of w s) (wav_path_of w s))
    (cleanup w (mp3_path_of w s) (wav_path_of w s))
    (paths_chosen s).
Proof. reflexivity. Qed.

(** The clean-up never replaces the outcome of the block it follows. *)
Lemma try_finally_cleanup {A : Type}
    (w : World) (m : M A) (mp3_path wav_path : string) (s : state) :
  try_finally m (cleanup w mp3_path wav_path) s =
  ((m s).1,
   (remove_if_exists w wav_path (remove_if_exists w mp3_path (m s).2).2).2).
Proof.
  unfold try_finally, cleanup. simpl.
  destruct (m s) as [r sb]. simpl. unfold bind.
  pose proof (remove_if_exists_spec w mp3_path sb) as (H1 & _).
  destruct (remove_if_exists w mp3_path sb) as [r1 s1]. simpl in *.
  subst r1.
  pose proof (remove_if_exists_spec w wav_path s1) as (H2 & _).
  destruct (remove_if_exists w wav_path s1) as [r2 s2]. simpl in *.
  subst r2. reflexivity.
Qed.

(** C6. Whatever the [try] block of the transcription step does (it
    returns a text, or the download, the conversion or the recognition
    raises), the step ends with the outcome of that block, after one
    deletion attempt on the mp3 path and then one on the wav path chosen
    at its start: the path is tested and, when the file is there,
    [os.remove] is called on it.  A failing [os.remove] changes nothing of
    the outcome; a temporary file is left behind only when its removal
    failed, so none is left when removals succeed. *)
Theorem process_audio_challenge_cleans_up
    (w : World) (audio_url : string) (s : state) :
  let mp3_path := mp3_path_of w s in
  let wav_path := wav_path_of w s in
  let body := transcribe w audio_url mp3_path wav_path (paths_chosen s) in
  let final := _process_audio_challenge w audio_url s in
  final.1 = body.1 /\
  (exists mid : state,
     trace mid = trace body.2 ++ deletion_attempt mp3_path (fs body.2) /\
     trace final.2 = trace mid ++ deletion_attempt wav_path (fs mid) /\
     fs mid ⊆ fs body.2 /\ fs final.2 ⊆ fs mid /\
     (mp3_path ∈ fs final.2 ->
      w_os_remove_error w (log (EPathExists mp3_path) body.2) mp3_path
      <> None) /\
     (wav_path ∈ fs final.2 ->
      w_os_remove_error w (log (EPathExists wav_path) mid) wav_path
      <> None)) /\
  ((forall s' path, w_os_remove_error w s' path = None) ->
   (mp3_path ∉ fs final.2) /\ (wav_path ∉ fs final.2)).
Proof.
  intros mp3_path wav_path body final.
  assert (Hrun : final =
    let mid := (remove_if_exists w mp3_path body.2).2 in
    (body.1, (remove_if_exists w wav_path mid).2)).
  { subst final body. rewrite process_audio_challenge_unfold.
    apply try_finally_cleanup. }
  rewrite Hrun. clear Hrun. simpl.
  pose proof (remove_if_exists_spec w mp3_path body.2)
    as (_ & Htr1 & Hfs1 & Hleft1).
  set (mid := (remove_if_exists w mp3_path body.2).2) in *.
  pose proof (remove_if_exists_spec w wav_path mid)
    as (_ & Htr2 & Hfs2 & Hleft2).
  assert (Hmp3 : mp3_path ∈ fs (remove_if_exists w wav_path mid).2 ->
                 w_os_remove_error w (log (EPathExists mp3_path) body.2)
                   mp3_path <> None)
    by (intros Hin; apply Hleft1, Hfs2, Hin).
  split; [reflexivity|]. split.
  - exists mid. repeat split; assumption.
  - intros Hok. split; intros Hin.
    + apply Hmp3 in Hin. apply Hin, Hok.
    + apply Hleft2 in Hin. apply Hin, Hok.
Qed.

(** A failing recogniser, removals that succeed: nothing is left behind. *)
Lemma process_audio_challenge_cleans_up_witness :
  let w := scripted garbled_page in
  let final := _process_audio_challenge w "https://example/audio.mp3" init in
  (forall s' path, w_os_remove_error w s' path = None) /\
  final.1 = Raise (Exn (PyLibError "UnknownValueError") "") /\
  (mp3_path_of w init ∉ fs final.2) /\ (wav_path_of w init ∉ fs final.2).
Proof.
  intros w final.
  assert (Hok : forall s' path, w_os_remove_error w s' path = None)
    by (intros; reflexivity).
  split; [exact Hok|]. split; [vm_compute; reflexivity|].
  exact (proj2 (proj2 (process_audio_challenge_cleans_up
                         w "https://example/audio.mp3" init)) Hok).
Defined.

(** That run, call by call. *)
Example process_audio_challenge_garbled_trace :
  trace (_process_audio_challenge (scripted garbled_page)
           "https://example/audio.mp3" init).2 =
  [ ERandrange 1 1000; ERandrange 1 1000;
    EUrlretrieve "https://example/audio.mp3" "/tmp/41.mp3";
    EFromMp3 "/tmp/41.mp3"; EExport (Sound 1) "/tmp/42.wav";
    ERecord "/tmp/42.wav"; ERecognizeGoogle (Audio 1);
    EPathExists "/tmp/41.mp3"; ERemove "/tmp/41.mp3";
    EPathExists "/tmp/42.wav"; ERemove "/tmp/42.wav" ].
Proof. vm_compute. reflexivity. Qed.

(** Removals that fail: both are attempted, the text is returned all the
    same, and the two files stay. *)
Example process_audio_challenge_sticky :
  let final := _process_audio_challenge (scripted sticky_page)
                 "https://example/audio.mp3" init in
  final.1 = Ok "fireball" /\
  trace final.2 =
  [ ERandrange 1 1000; ERandrange 1 1000;
    EUrlretrieve "https://example/audio.mp3" "/tmp/41.mp3";
    EFromMp3 "/tmp/41.mp3"; EExport (Sound 1) "/tmp/42.wav";
    ERecord "/tmp/42.wav"; ERecognizeGoogle (Audio 1);
    EPathExists "/tmp/41.mp3"; ERemove "/tmp/41.mp3";
    EPathExists "/tmp/42.wav"; ERemove "/tmp/42.wav" ] /\
  elements (fs final.2) = ["/tmp/41.mp3"; "/tmp/42.wav"].
Proof. vm_compute. auto. Qed.

(** ** [solveCaptcha] *)

Lemma click_checkbox_off_audio_path (w : World) :
  emits off_audio_path (click_checkbox w).
Proof.
  unfold click_checkbox. unfold_api.
  repeat emits_step; repeat split; reflexivity.
Qed.

Lemma is_solved_off_audio_path (w : World) :
  emits off_audio_path (is_solved w).
Proof.
  unfold is_solved. unfold_api.
  repeat emits_step; repeat split; reflexivity.
Qed.

Lemma open_audio_challenge_before_source (w : World) :
  emits before_audio_source (open_audio_challenge w).
Proof.
  unfold open_audio_challenge. unfold_api.
  repeat emits_step; repeat split; reflexivity.
Qed.

Lemma is_detected_before_source (w : World) :
  emits before_audio_source (is_detected w).
Proof.
  unfold is_detected. unfold_api.
  repeat emits_step; repeat split; reflexivity.
Qed.

Lemma off_audio_path_before_source (e : event) :
  off_audio_path e -> before_audio_source e.
Proof. intros (? & ? & ?). split; assumption. Qed.

(** Two computations run one after the other. *)
Lemma emits_seq {A B : Type} (P : event -> Prop)
    (m1 : M A) (m2 : M B) (s s1 s2 : state) (r1 : result A) (r2 : result B) :
  emits P m1 -> emits P m2 ->
  m1 s = (r1, s1) -> m2 s1 = (r2, s2) ->
  exists evs, trace s2 = trace s ++ evs /\ Forall P evs.
Proof.
  intros H1 H2 E1 E2.
  destruct (H1 s) as (evs1 & Ht1 & Hf1). rewrite E1 in Ht1.
  destruct (H2 s1) as (evs2 & Ht2 & Hf2). rewrite E2 in Ht2.
  simpl in *. exists (evs1 ++ evs2).
  rewrite Ht2, Ht1, app_assoc. split; [reflexivity|].
  apply Forall_app; auto.
Qed.

(** C3. When [is_solved] returns [True] right after the checkbox click,
    [solveCaptcha] returns at that point: it ends normally in the state
    [is_solved] left, and nothing it did is part of the audio path (no
    lookup of the challenge frame, no click on the audio button, no lookup
    or read of the audio source, no call of the transcription step). *)
Theorem solveCaptcha_checkbox_pass (w : World) (s s1 s2 : state) :
  click_checkbox w s = (Ok tt, s1) ->
  is_solved w s1 = (Ok true, s2) ->
  solveCaptcha w s = (Ok tt, s2) /\
  exists evs, trace s2 = trace s ++ evs /\ Forall off_audio_path evs.
Proof.
  intros Hclick Hsolved. split.
  - unfold solveCaptcha. unfold bind at 1. rewrite Hclick.
    unfold bind at 1. rewrite Hsolved. reflexivity.
  - exact (emits_seq _ _ _ _ _ _ _ _
             (click_checkbox_off_audio_path w) (is_solved_off_audio_path w)
             Hclick Hsolved).
Qed.

(** The page solved by the click alone. *)
Lemma solveCaptcha_checkbox_pass_witness :
  let w := scripted solved_page in
  click_checkbox w init = (Ok tt, after_click) /\
  is_solved w after_click = (Ok true, (is_solved w after_click).2) /\
  solveCaptcha w init = (Ok tt, (is_solved w after_click).2).
Proof.
  intros w.
  assert (H1 : click_checkbox w init = (Ok tt, after_click))
    by (vm_compute; reflexivity).
  assert (H2 : is_solved w after_click = (Ok true, (is_solved w after_click).2))
    by (vm_compute; reflexivity).
  split; [exact H1|]. split; [exact H2|].
  exact (proj1 (solveCaptcha_checkbox_pass w init after_click _ H1 H2)).
Defined.

Lemma solveCaptcha_at_detection_check
    (w : World) (s : state) (fr : frame) (s3 : state) :
  reaches_detection_check w s fr s3 ->
  solveCaptcha w s =
  (detected <- is_detected w ;;
   if detected then raise (Exception "Captcha detected bot behavior")
   else try_except isinstance_Exception (audio_attempt w fr)
          (fun e => raise (AudioChallengeFailed e))) s3.
Proof.
  intros (s1 & s2 & Hclick & Hsolved & Hopen).
  unfold solveCaptcha. unfold bind at 1. rewrite Hclick.
  unfold bind at 1. rewrite Hsolved.
  unfold bind at 1. rewrite Hopen. reflexivity.
Qed.


Lemma reaches_detection_check_trace
    (w : World) (s : state) (fr : frame) (s3 : state) :
  reaches_detection_check w s fr s3 ->
  exists evs, trace s3 = trace s ++ evs /\ Forall before_audio_source evs.
Proof.
  intros (s1 & s2 & Hclick & Hsolved & Hopen).
  destruct (emits_seq _ _ _ _ _ _ _ _
              (click_checkbox_off_audio_path w) (is_solved_off_audio_path w)
              Hclick Hsolved) as (evs & Htr & Hevs).
  destruct (open_audio_challenge_before_source w s2) as (evs' & Htr' & Hevs').
  rewrite Hopen in Htr'. simpl in Htr'.
  exists (evs ++ evs'). rewrite Htr', Htr, app_assoc.
  split; [reflexivity|]. apply Forall_app. split; [|exact Hevs'].
  eapply Forall_impl; [exact Hevs|]. apply off_audio_path_before_source.
Qed.

(** C4. When [is_detected] returns [True] after the click on the audio
    button and the pause, [solveCaptcha] raises
    [Exception("Captcha detected bot behavior")] in the state [is_detected]
    left.  The exception is not the wrapped one of the [try] block, and
    nothing the run did looks for the audio element, reads its source or
    belongs to the transcription step. *)
Theorem solveCaptcha_bot_detected
    (w : World) (s : state) (fr : frame) (s3 s4 : state) :
  reaches_detection_check w s fr s3 ->
  is_detected w s3 = (Ok true, s4) ->
  solveCaptcha w s = (Raise (Exception "Captcha detected bot behavior"), s4) /\
  (forall e, Exception "Captcha detected bot behavior"
             <> AudioChallengeFailed e) /\
  exists evs, trace s4 = trace s ++ evs /\ Forall before_audio_source evs.
Proof.
  intros Hreach Hdet. split; [|split].
  - rewrite (solveCaptcha_at_detection_check _ _ _ _ Hreach).
    unfold bind. rewrite Hdet. reflexivity.
  - intros e. unfold AudioChallengeFailed, Exception. simpl.
    intros Heq. discriminate Heq.
  - destruct (reaches_detection_check_trace _ _ _ _ Hreach)
      as (evs & Htr & Hevs).
    destruct (is_detected_before_source w s3) as (evs' & Htr' & Hevs').
    rewrite Hdet in Htr'. simpl in Htr'.
    exists (evs ++ evs'). rewrite Htr', Htr, app_assoc.
    split; [reflexivity|]. apply Forall_app. auto.
Qed.

(** "Try again later" is visible after the audio button is clicked. *)
Lemma solveCaptcha_bot_detected_witness :
  let w := scripted blocked_page in
  reaches_detection_check w init (Frame 2) (before_detection blocked_page) /\
  is_detected w (before_detection blocked_page)
  = (Ok true, before_attempt blocked_page) /\
  solveCaptcha w init
  = (Raise (Exception "Captcha detected bot behavior"),
     before_attempt blocked_page).
Proof.
  intros w.
  assert (H1 : reaches_detection_check w init (Frame 2)
                 (before_detection blocked_page)).
  { exists (click_checkbox w init).2,
           (is_solved w (click_checkbox w init).2).2.
    repeat split; vm_compute; reflexivity. }
  assert (H2 : is_detected w (before_detection blocked_page)
               = (Ok true, before_attempt blocked_page))
    by (vm_compute; reflexivity).
  split; [exact H1|]. split; [exact H2|].
  exact (proj1 (solveCaptcha_bot_detected w init _ _ _ H1 H2)).
Defined.

Arguments _process_audio_challenge : simpl never.
Arguments is_solved : simpl never.






(** The recogniser fails with an empty message: the wrapped message is the
    bare prefix. *)
Example solveCaptcha_garbled :
  (solveCaptcha (scripted garbled_page) init).1
  = Raise (Exception "Audio challenge failed: ").
Proof. vm_compute. reflexivity. Qed.

(** A transcription that was returned came from [_process_audio_challenge],
    called on the non-empty [src] of the audio element. *)
Lemma fetch_transcription_ok
    (w : World) (fr : frame) (s4 s7 : state) (text : string) :
  fetch_transcription w fr s4 = (Ok text, s7) ->
  exists el url,
    w_get_attribute w (at_src_read s4 fr) el "src" = Ok (Some url) /\
    url <> "" /\
    _process_audio_challenge w url (at_transcription s4 fr el)
    = (Ok text, s7).
Proof.
  unfold fetch_transcription, at_transcription, at_src_read.
  unfold_api. unfold_monad. simpl.
  destruct (w_frame_wait_for_selector _ _ _ _ _ _) as [[el|]|];
    simpl; try (intros H; discriminate H).
  destruct (w_get_attribute _ _ _ _) as [[[|c url]|]|] eqn:Hsrc;
    simpl; try (intros H; discriminate H).
  intros Hproc. exists el, (String c url).
  split; [exact Hsrc|]. split; [discriminate|exact Hproc].
Qed.






(** Upper-case letters of a transcription are typed in lower case. *)
Example solveCaptcha_types_lowercase :
  EFrameFill (Frame 2) "#audio-response" "fireball"
  ∈ trace (solveCaptcha (scripted audio_page) init).2.
Proof. vm_compute. repeat (try apply list_elem_of_here; apply list_elem_of_further). Qed.

(** * Further properties of the solver *)

(** ** The status checks only look *)

Section Inspects.

Context {A B : Type}.

Lemma inspects_ret (a : A) : inspects (ret a).
Proof.
  intros [tr files]. exists []. simpl. rewrite app_nil_r. auto.
Qed.

Lemma inspects_call (e : event) (answer : state -> result A) :
  read_only e -> inspects (call e answer).
Proof. intros He s. exists [e]. simpl. auto. Qed.

Lemma inspects_bind (m : M A) (k : A -> M B) :
  inspects m -> (forall a, inspects (k a)) -> inspects (bind m k).
Proof.
  intros Hm Hk s. unfold bind.
  destruct (Hm s) as (evs & Hst & Hevs).
  destruct (m s) as [[a|e] s']; simpl in *.
  - destruct (Hk a s') as (evs' & Hst' & Hevs').
    exists (evs ++ evs'). rewrite Hst'. subst s'. simpl.
    rewrite app_assoc. split; [reflexivity|]. apply Forall_app; auto.
  - exists evs. auto.
Qed.

Lemma inspects_try_except (catches : exn -> bool) (m : M A) (h : exn -> M A) :
  inspects m -> (forall e, inspects (h e)) -> inspects (try_except catches m h).
Proof.
  intros Hm Hh s. unfold try_except.
  destruct (Hm s) as (evs & Hst & Hevs).
  destruct (m s) as [[a|e] s']; simpl in *.
  - exists evs. auto.
  - destruct (catches e); [|exists evs; auto].
    destruct (Hh e s') as (evs' & Hst' & Hevs').
    exists (evs ++ evs'). rewrite Hst'. subst s'. simpl.
    rewrite app_assoc. split; [reflexivity|]. apply Forall_app; auto.
Qed.

End Inspects.

Ltac inspects_step :=
  match goal with
  | |- inspects (bind _ _) => apply inspects_bind; [|intros ?]
  | |- inspects (try_except _ _ _) => apply inspects_try_except; [|intros ?]
  | |- inspects (ret _) => apply inspects_ret
  | |- inspects (call _ _) => apply inspects_call
  | |- inspects (match ?x with _ => _ end) => destruct x
  end.

(** X2. [is_solved], [is_detected] and [get_token] never act on the page:
    whatever the page does, the only calls they make are lookups, frame
    entries and attribute or visibility reads (no click, no fill, no pause,
    no download, no file removal), and they leave the files untouched. *)
Theorem status_checks_only_inspect (w : World) :
  inspects (is_solved w) /\ inspects (is_detected w) /\ inspects (get_token w).
Proof.
  unfold is_solved, is_detected, get_token. unfold_api.
  repeat split; repeat inspects_step; exact I.
Qed.

(** ** [get_token] *)



(** ** [solveCaptcha] before its [try] block *)

Arguments is_detected : simpl never.
Arguments open_audio_challenge : simpl never.
Arguments click_checkbox : simpl never.
Arguments audio_attempt : simpl never.

(** X3. Failures of [solveCaptcha] on its way to the checkbox (lines
    50-61).  An exception raised by a Playwright call leaves the method as
    it is, unwrapped; a frame lookup that answers [None] gives
    ["Cannot find reCAPTCHA iframe"], a frame that cannot be entered gives
    ["Cannot access iframe content"].  The answer of the wait for the
    checkbox is not looked at: the click is made whatever it is. *)
Theorem solveCaptcha_widget_failures (w : World) (s : state) :
  (forall e,
     w_page_wait_for_selector w s (get_selector "iframe")
       (Some TIMEOUT_STANDARD) = Raise e ->
     solveCaptcha w s = (Raise e, widget_at_frame s)) /\
  (w_page_wait_for_selector w s (get_selector "iframe")
     (Some TIMEOUT_STANDARD) = Ok None ->
   solveCaptcha w s =
     (Raise (Exception "Cannot find reCAPTCHA iframe"), widget_at_frame s)) /\
  (forall ih,
     w_page_wait_for_selector w s (get_selector "iframe")
       (Some TIMEOUT_STANDARD) = Ok (Some ih) ->
     (forall e,
        w_content_frame w (widget_at_frame s) ih = Raise e ->
        solveCaptcha w s = (Raise e, widget_at_checkbox s ih)) /\
     (w_content_frame w (widget_at_frame s) ih = Ok None ->
      solveCaptcha w s =
        (Raise (Exception "Cannot access iframe content"),
         widget_at_checkbox s ih)) /\
     (forall fr,
        w_content_frame w (widget_at_frame s) ih = Ok (Some fr) ->
        (forall e,
           w_frame_wait_for_selector w (widget_at_checkbox s ih) fr
             (get_selector "checkbox") (Some TIMEOUT_STANDARD) StateVisible
           = Raise e ->
           solveCaptcha w s = (Raise e, widget_at_click s ih fr)) /\
        (forall found,
           w_frame_wait_for_selector w (widget_at_checkbox s ih) fr
             (get_selector "checkbox") (Some TIMEOUT_STANDARD) StateVisible
           = Ok found ->
           (forall e,
              w_frame_click w (widget_at_click s ih fr) fr
                (get_selector "checkbox") = Raise e ->
              solveCaptcha w s = (Raise e, widget_clicked s ih fr)) /\
           (w_frame_click w (widget_at_click s ih fr) fr
              (get_selector "checkbox") = Ok tt ->
            click_checkbox w s = (Ok tt, widget_clicked s ih fr))))).
Proof.
  unfold solveCaptcha, click_checkbox, widget_clicked, widget_at_click,
    widget_at_checkbox, widget_at_frame.
  unfold_api. unfold_monad.
  split; [|split].
  - intros e He. simpl. rewrite He. reflexivity.
  - intros He. simpl. rewrite He. reflexivity.
  - intros ih Hih. simpl. rewrite Hih. simpl. split; [|split].
    + intros e He. rewrite He. reflexivity.
    + intros He. rewrite He. reflexivity.
    + intros fr Hfr. rewrite Hfr. simpl. split.
      * intros e He. rewrite He. reflexivity.
      * intros found Hfound. rewrite Hfound. simpl. split.
        -- intros e He. rewrite He. reflexivity.
        -- intros He. rewrite He. reflexivity.
Qed.

(** No widget on the page: the lookup times out and the timeout error of
    the lookup is what [solveCaptcha] raises. *)
Lemma solveCaptcha_widget_failures_witness :
  let w := scripted blank_page in
  w_page_wait_for_selector w init (get_selector "iframe")
    (Some TIMEOUT_STANDARD) = timed_out /\
  solveCaptcha w init =
    (Raise (Exn (PyLibError "TimeoutError") "Timeout exceeded."),
     widget_at_frame init).
Proof.
  intros w.
  assert (H : w_page_wait_for_selector w init (get_selector "iframe")
                (Some TIMEOUT_STANDARD) = timed_out)
    by (vm_compute; reflexivity).
  split; [exact H|].
  exact (proj1 (solveCaptcha_widget_failures w init) _ H).
Defined.

Lemma solveCaptcha_at_challenge (w : World) (s s2 : state) :
  reaches_challenge w s s2 ->
  solveCaptcha w s =
  (frame <- open_audio_challenge w ;;
   detected <- is_detected w ;;
   if detected then raise (Exception "Captcha detected bot behavior")
   else try_except isinstance_Exception (audio_attempt w frame)
          (fun e => raise (AudioChallengeFailed e))) s2.
Proof.
  intros (s1 & Hclick & Hsolved).
  unfold solveCaptcha. unfold bind at 1. rewrite Hclick.
  unfold bind at 1. rewrite Hsolved. reflexivity.
Qed.

(** Step into lines 68-80 of [solveCaptcha]. *)
Ltac enter_challenge H :=
  rewrite (solveCaptcha_at_challenge _ _ _ H);
  unfold bind at 1; unfold open_audio_challenge;
  unfold_api; unfold_monad; simpl.

(** X4. Failures of [solveCaptcha] while it requests the audio challenge
    (lines 68-80), once the click has not solved the widget.  An exception
    of a Playwright call (the two waits, the frame entry, the click, the
    pause) leaves the method as it is, not wrapped as an audio-challenge
    failure; a challenge frame that is not found gives
    ["Cannot find challenge iframe"], one that cannot be entered gives
    ["Cannot access challenge iframe"]. *)
Theorem solveCaptcha_challenge_failures (w : World) (s s2 : state) :
  reaches_challenge w s s2 ->
  (forall e,
     w_page_wait_for_selector w s2 (get_selector "challenge_frame")
       (Some TIMEOUT_STANDARD) = Raise e ->
     solveCaptcha w s = (Raise e, challenge_at_frame s2)) /\
  (w_page_wait_for_selector w s2 (get_selector "challenge_frame")
     (Some TIMEOUT_STANDARD) = Ok None ->
   solveCaptcha w s =
     (Raise (Exception "Cannot find challenge iframe"),
      challenge_at_frame s2)) /\
  (forall cf,
     w_page_wait_for_selector w s2 (get_selector "challenge_frame")
       (Some TIMEOUT_STANDARD) = Ok (Some cf) ->
     (forall e,
        w_content_frame w (challenge_at_frame s2) cf = Raise e ->
        solveCaptcha w s = (Raise e, challenge_at_button s2 cf)) /\
     (w_content_frame w (challenge_at_frame s2) cf = Ok None ->
      solveCaptcha w s =
        (Raise (Exception "Cannot access challenge iframe"),
         challenge_at_button s2 cf)) /\
     (forall fr,
        w_content_frame w (challenge_at_frame s2) cf = Ok (Some fr) ->
        (forall e,
           w_frame_wait_for_selector w (challenge_at_button s2 cf) fr
             (get_selector "audio_challenge") (Some TIMEOUT_STANDARD)
             StateVisible = Raise e ->
           solveCaptcha w s = (Raise e, challenge_at_click s2 cf fr)) /\
        (forall found,
           w_frame_wait_for_selector w (challenge_at_button s2 cf) fr
             (get_selector "audio_challenge") (Some TIMEOUT_STANDARD)
             StateVisible = Ok found ->
           (forall e,
              w_frame_click w (challenge_at_click s2 cf fr) fr
                (get_selector "audio_challenge") = Raise e ->
              solveCaptcha w s = (Raise e, challenge_at_pause s2 cf fr)) /\
           (w_frame_click w (challenge_at_click s2 cf fr) fr
              (get_selector "audio_challenge") = Ok tt ->
            (forall e,
               w_page_wait_for_timeout w (challenge_at_pause s2 cf fr) 300
               = Raise e ->
               solveCaptcha w s = (Raise e, challenge_requested s2 cf fr)) /\
            (w_page_wait_for_timeout w (challenge_at_pause s2 cf fr) 300
             = Ok tt ->
             open_audio_challenge w s2
             = (Ok fr, challenge_requested s2 cf fr)))))).
Proof.
  intros Hreach.
  unfold challenge_requested, challenge_at_pause, challenge_at_click,
    challenge_at_button, challenge_at_frame.
  split; [|split].
  - intros e He. enter_challenge Hreach. rewrite He. reflexivity.
  - intros He. enter_challenge Hreach. rewrite He. reflexivity.
  - intros cf Hcf. split; [|split].
    + intros e He. enter_challenge Hreach. rewrite Hcf. simpl. rewrite He.
      reflexivity.
    + intros He. enter_challenge Hreach. rewrite Hcf. simpl. rewrite He.
      reflexivity.
    + intros fr Hfr. split.
      * intros e He. enter_challenge Hreach. rewrite Hcf. simpl.
        rewrite Hfr. simpl. rewrite He. reflexivity.
      * intros found Hfound. split.
        -- intros e He. enter_challenge Hreach. rewrite Hcf. simpl.
           rewrite Hfr. simpl. rewrite Hfound. simpl. rewrite He.
           reflexivity.
        -- intros Hclick. split.
           ++ intros e He. enter_challenge Hreach. rewrite Hcf. simpl.
              rewrite Hfr. simpl. rewrite Hfound. simpl. rewrite Hclick.
              simpl. rewrite He. reflexivity.
           ++ intros Hpause. unfold open_audio_challenge.
              unfold_api. unfold_monad. simpl. rewrite Hcf. simpl.
              rewrite Hfr. simpl. rewrite Hfound. simpl. rewrite Hclick.
              simpl. rewrite Hpause. reflexivity.
Qed.

(** The challenge frame never comes. *)
Lemma solveCaptcha_challenge_failures_witness :
  let w := no_challenge_world in
  let s2 := (is_solved w (click_checkbox w init).2).2 in
  reaches_challenge w init s2 /\
  w_page_wait_for_selector w s2 (get_selector "challenge_frame")
    (Some TIMEOUT_STANDARD) = Ok None /\
  solveCaptcha w init =
    (Raise (Exception "Cannot find challenge iframe"), challenge_at_frame s2).
Proof.
  intros w s2.
  assert (H1 : reaches_challenge w init s2).
  { exists (click_checkbox w init).2. split; vm_compute; reflexivity. }
  assert (H2 : w_page_wait_for_selector w s2 (get_selector "challenge_frame")
                 (Some TIMEOUT_STANDARD) = Ok None)
    by (vm_compute; reflexivity).
  split; [exact H1|]. split; [exact H2|].
  exact (proj1 (proj2 (solveCaptcha_challenge_failures w init s2 H1)) H2).
Defined.

(** ** What a normal return of [solveCaptcha] means *)

(** X5. [solveCaptcha] returns normally only on the word of [is_solved],
    at one of two points.  Either the checkbox was clicked and the call of
    [is_solved] that follows the click answered [True]; or the click did
    not solve the widget, no bot detection was signalled, a transcription
    was returned, the fill, the click on verify and the pause succeeded,
    and the call of [is_solved] that follows the pause answered [True].
    In both cases the run ends in the state that call left. *)
Theorem solveCaptcha_success_means_solved (w : World) (s s' : state) :
  solveCaptcha w s = (Ok tt, s') ->
  (exists s1,
     click_checkbox w s = (Ok tt, s1) /\ is_solved w s1 = (Ok true, s')) \/
  (exists fr s4 text s7,
     reaches_audio_attempt w s fr s4 /\
     fetch_transcription w fr s4 = (Ok text, s7) /\
     w_frame_fill w s7 fr (get_selector "audio_response") (py_lower w text)
     = Ok tt /\
     w_frame_click w (at_verify w s7 fr text) fr (get_selector "verify_button")
     = Ok tt /\
     w_page_wait_for_timeout w (at_pause w s7 fr text) 400 = Ok tt /\
     is_solved w (at_recheck w s7 fr text) = (Ok true, s')).
Proof.
  unfold solveCaptcha, audio_attempt, submit_response, at_recheck, at_pause,
    at_verify.
  unfold_api. unfold_monad.
  destruct (click_checkbox w s) as [[[]|e] s1] eqn:Hclick;
    [|intros H; discriminate H].
  destruct (is_solved w s1) as [[[|]|e] s2] eqn:Hsolved;
    [intros [= <-]; eauto| |intros H; discriminate H].
  destruct (open_audio_challenge w s2) as [[fr|e] s3] eqn:Hopen;
    [|intros H; discriminate H].
  destruct (is_detected w s3) as [[[|]|e] s4] eqn:Hdet;
    [intros H; discriminate H| |intros H; discriminate H].
  destruct (fetch_transcription w fr s4) as [[text|e] s7] eqn:Hfetch;
    [|impossible_run].
  simpl.
  destruct (w_frame_fill _ _ _ _ _) as [[]|e] eqn:Hfill; [|impossible_run].
  simpl.
  destruct (w_frame_click _ _ _ _) as [[]|e] eqn:Hverify; [|impossible_run].
  simpl.
  destruct (w_page_wait_for_timeout _ _ _) as [[]|e] eqn:Hpause;
    [|impossible_run].
  simpl.
  destruct (is_solved w (log (EPageWaitForTimeout 400) _))
    as [[[|]|e] s8] eqn:Hfinal; [|impossible_run|impossible_run].
  simpl. intros [= <-]. right. exists fr, s4, text, s7.
  split; [|auto].
  exists s3. split; [|exact Hdet]. exists s1, s2. auto.
Qed.

(** The good page: the run succeeds, on the word of one of the two
    checks. *)
Lemma solveCaptcha_success_means_solved_witness :
  let w := scripted fireball_page in
  let s' := (solveCaptcha w init).2 in
  solveCaptcha w init = (Ok tt, s') /\
  ((exists s1,
      click_checkbox w init = (Ok tt, s1) /\
      is_solved w s1 = (Ok true, s')) \/
   (exists fr s4 text s7,
      reaches_audio_attempt w init fr s4 /\
      fetch_transcription w fr s4 = (Ok text, s7) /\
      w_frame_fill w s7 fr (get_selector "audio_response") (py_lower w text)
      = Ok tt /\
      w_frame_click w (at_verify w s7 fr text) fr
        (get_selector "verify_button") = Ok tt /\
      w_page_wait_for_timeout w (at_pause w s7 fr text) 400 = Ok tt /\
      is_solved w (at_recheck w s7 fr text) = (Ok true, s'))).
Proof.
  intros w s'.
  assert (H : solveCaptcha w init = (Ok tt, s')) by (vm_compute; reflexivity).
  split; [exact H|].
  exact (solveCaptcha_success_means_solved w init s' H).
Defined.

(** ** The transcription step, call by call *)





(** ** The files the step touches *)

(** A round of the clean-up removes no file but its own. *)
Lemma remove_if_exists_keeps (w : World) (path other : string) (s : state) :
  other ∈ fs s -> other <> path ->
  other ∈ fs (remove_if_exists w path s).2.
Proof.
  intros Hin Hne. unfold remove_if_exists, os_remove. unfold_api.
  unfold_monad. simpl. unfold isinstance_OSError.
  destruct (bool_decide (path ∈ fs s)) eqn:Hthere; simpl; [|exact Hin].
  rewrite Hthere.
  destruct (w_os_remove_error w _ path); simpl; [exact Hin|].
  apply elem_of_difference. split; [exact Hin|].
  intros Heq%elem_of_singleton. contradiction.
Qed.

Lemma remove_if_exists_removes_only
    (w : World) (path mp3_path wav_path : string) :
  path = mp3_path \/ path = wav_path ->
  emits (removes_only mp3_path wav_path) (remove_if_exists w path).
Proof.
  intros Hpath. unfold remove_if_exists. unfold_api.
  repeat emits_step; simpl; auto.
Qed.

(** X7. The clean-up of the transcription step removes nothing but the two
    temporary files of the step: every [os.remove] it calls is on the mp3
    path or on the wav path, it creates no file, and every other file that
    exists when the [try] block ends still exists when the step ends. *)
Theorem process_audio_challenge_removes_only_its_files
    (w : World) (url : string) (s : state) :
  let mp3_path := mp3_path_of w s in
  let wav_path := wav_path_of w s in
  let body := transcribe w url mp3_path wav_path (paths_chosen s) in
  let final := _process_audio_challenge w url s in
  (exists evs,
     trace final.2 = trace body.2 ++ evs /\
     Forall (removes_only mp3_path wav_path) evs) /\
  fs final.2 ⊆ fs body.2 /\
  (forall other,
     other ∈ fs body.2 -> other <> mp3_path -> other <> wav_path ->
     other ∈ fs final.2).
Proof.
  intros mp3_path wav_path body final.
  assert (Hrun : final.2 =
    (remove_if_exists w wav_path (remove_if_exists w mp3_path body.2).2).2).
  { subst final body. rewrite process_audio_challenge_unfold.
    rewrite try_finally_cleanup. reflexivity. }
  rewrite Hrun. clear Hrun. split; [|split].
  - destruct (remove_if_exists_removes_only w mp3_path mp3_path wav_path
                (or_introl eq_refl) body.2) as (evs1 & Htr1 & Hevs1).
    destruct (remove_if_exists_removes_only w wav_path mp3_path wav_path
                (or_intror eq_refl) (remove_if_exists w mp3_path body.2).2)
      as (evs2 & Htr2 & Hevs2).
    exists (evs1 ++ evs2). rewrite Htr2, Htr1, app_assoc.
    split; [reflexivity|]. apply Forall_app; auto.
  - pose proof (remove_if_exists_spec w mp3_path body.2) as (_ & _ & H1 & _).
    pose proof (remove_if_exists_spec w wav_path
                  (remove_if_exists w mp3_path body.2).2) as (_ & _ & H2 & _).
    etrans; eassumption.
  - intros other Hin Hmp3 Hwav.
    apply remove_if_exists_keeps; [|exact Hwav].
    apply remove_if_exists_keeps; [exact Hin|exact Hmp3].
Qed.

(** ** The two temporary paths *)

Lemma append_same_prefix (p x y : string) : p +:+ x = p +:+ y -> x = y.
Proof.
  induction p as [|c p IH]; simpl; [auto|]. intros [= H]. auto.
Qed.

Lemma os_path_join_inj (a x y : string) :
  os_path_join a x = os_path_join a y -> x = y.
Proof.
  unfold os_path_join. destruct (_ || _); intros H.
  - exact (append_same_prefix _ _ _ H).
  - apply append_same_prefix in H. simpl in H. injection H as H. exact H.
Qed.

Lemma mp3_name_is_no_wav_name (d1 d2 : string) :
  d1 +:+ ".mp3" <> d2 +:+ ".wav".
Proof.
  revert d2. induction d1 as [|c d1 IH]; intros d2 H.
  - destruct d2 as [|c1 [|c2 [|c3 [|c4 d2]]]]; simpl in H;
      try discriminate H.
    injection H as _ _ _ _ H. destruct d2; discriminate H.
  - destruct d2 as [|c' d2]; simpl in H.
    + injection H as _ H.
      destruct d1 as [|c1 [|c2 [|c3 d1]]]; simpl in H; try discriminate H.
      injection H as _ _ _ H. destruct d1; discriminate H.
    + injection H as _ H. exact (IH _ H).
Qed.

(** X8. The two temporary paths of a transcription step are never the
    same file, whatever the two random draws and the temporary directory:
    one is [<n>.mp3] and the other [<m>.wav] in the same directory. *)
Theorem temp_paths_differ (w : World) (s : state) :
  mp3_path_of w s <> wav_path_of w s.
Proof.
  unfold mp3_path_of, wav_path_of, temp_path. intros H.
  apply os_path_join_inj in H. exact (mp3_name_is_no_wav_name _ _ H).
Qed.

(** A file of somebody else survives the step. *)
Lemma process_audio_challenge_removes_only_its_files_witness :
  let w := scripted audio_page in
  let url := "https://example/audio.mp3" in
  let s := with_foreign_file in
  "/tmp/keep.txt"
    ∈ fs (transcribe w url (mp3_path_of w s) (wav_path_of w s)
            (paths_chosen s)).2 /\
  "/tmp/keep.txt" ∈ fs (_process_audio_challenge w url s).2.
Proof.
  intros w url s.
  assert (H : "/tmp/keep.txt"
                ∈ fs (transcribe w url (mp3_path_of w s) (wav_path_of w s)
                        (paths_chosen s)).2)
    by (apply (bool_decide_unpack _); vm_compute; exact I).
  split; [exact H|].
  apply (proj2 (proj2 (process_audio_challenge_removes_only_its_files
                         w url s)) _ H); vm_compute; discriminate.
Defined.

(** ** No retry *)

Section AtMost.

Context {A B : Type} (p : event -> bool).

Lemma count_events_app (evs evs' : list event) :
  count_events p (evs ++ evs') = (count_events p evs + count_events p evs')%nat.
Proof. unfold count_events. rewrite List.filter_app. apply length_app. Qed.

Lemma at_most_weaken (n n' : nat) (m : M A) :
  (n <= n')%nat -> emits_at_most p n m -> emits_at_most p n' m.
Proof.
  intros Hle Hm s. destruct (Hm s) as (evs & Htr & Hn).
  exists evs. split; [exact Htr|lia].
Qed.

Lemma at_most_none (m : M A) :
  emits (fun e => p e = false) m -> emits_at_most p 0 m.
Proof.
  intros Hm s. destruct (Hm s) as (evs & Htr & Hevs).
  exists evs. split; [exact Htr|].
  unfold count_events. clear Htr. induction Hevs as [|e evs He _ IH]; simpl.
  - lia.
  - rewrite He. exact IH.
Qed.

Lemma at_most_call (e : event) (answer : state -> result A) :
  emits_at_most p 1 (call e answer).
Proof.
  intros s. exists [e]. split; [reflexivity|].
  unfold count_events. simpl. destruct (p e); simpl; lia.
Qed.

Lemma at_most_call_fs (e : event) (answer : state -> gset string * result A) :
  emits_at_most p 1 (call_fs e answer).
Proof.
  intros s. exists [e]. unfold call_fs. destruct (answer s).
  split; [reflexivity|].
  unfold count_events. simpl. destruct (p e); simpl; lia.
Qed.

Lemma at_most_bind (n1 n2 : nat) (m : M A) (k : A -> M B) :
  emits_at_most p n1 m -> (forall a, emits_at_most p n2 (k a)) ->
  emits_at_most p (n1 + n2) (bind m k).
Proof.
  intros Hm Hk s. unfold bind.
  destruct (Hm s) as (evs & Htr & Hn).
  destruct (m s) as [[a|e] s']; simpl in *.
  - destruct (Hk a s') as (evs' & Htr' & Hn').
    exists (evs ++ evs'). rewrite Htr', Htr, app_assoc.
    split; [reflexivity|]. rewrite count_events_app. lia.
  - exists evs. split; [exact Htr|lia].
Qed.

Lemma at_most_try_except (n1 n2 : nat) (catches : exn -> bool)
    (m : M A) (h : exn -> M A) :
  emits_at_most p n1 m -> (forall e, emits_at_most p n2 (h e)) ->
  emits_at_most p (n1 + n2) (try_except catches m h).
Proof.
  intros Hm Hh s. unfold try_except.
  destruct (Hm s) as (evs & Htr & Hn).
  destruct (m s) as [[a|e] s']; simpl in *.
  - exists evs. split; [exact Htr|lia].
  - destruct (catches e); [|exists evs; split; [exact Htr|lia]].
    destruct (Hh e s') as (evs' & Htr' & Hn').
    exists (evs ++ evs'). rewrite Htr', Htr, app_assoc.
    split; [reflexivity|]. rewrite count_events_app. lia.
Qed.

Lemma at_most_try_finally (n1 n2 : nat) (m : M A) (fin : M unit) :
  emits_at_most p n1 m -> emits_at_most p n2 fin ->
  emits_at_most p (n1 + n2) (try_finally m fin).
Proof.
  intros Hm Hfin s. unfold try_finally.
  destruct (Hm s) as (evs & Htr & Hn).
  destruct (m s) as [r s']; simpl in *.
  destruct (Hfin s') as (evs' & Htr' & Hn').
  exists (evs ++ evs'). rewrite app_assoc, <- Htr, <- Htr'.
  split; [|rewrite count_events_app; lia].
  destruct (fin s') as [[[]|e] s'']; reflexivity.
Qed.

End AtMost.

Ltac unfold_solver :=
  unfold solveCaptcha, click_checkbox, open_audio_challenge, audio_attempt,
    fetch_transcription, submit_response, is_solved, is_detected,
    _process_audio_challenge, transcribe, cleanup, remove_if_exists;
  unfold_api.

(** None of the calls of the computation is counted. *)
Ltac counts_none :=
  solve [apply (at_most_weaken _ 0); [lia|];
         apply at_most_none; repeat emits_step; reflexivity].

(** At most one call of the computation is counted: at each sequencing it
    is in the first part or in the second. *)
Ltac counts_one :=
  first
    [ counts_none
    | match goal with
      | |- emits_at_most ?p 1 (bind _ _) =>
        first [ apply (at_most_bind p 0 1); [counts_none|intros ?; counts_one]
              | apply (at_most_bind p 1 0); [counts_one|intros ?; counts_none] ]
      | |- emits_at_most ?p 1 (try_except _ _ _) =>
        apply (at_most_try_except p 1 0); [counts_one|intros ?; counts_none]
      | |- emits_at_most ?p 1 (try_finally _ _) =>
        apply (at_most_try_finally p 1 0); [counts_one|counts_none]
      | |- emits_at_most _ 1 (call _ _) => apply at_most_call
      | |- emits_at_most _ 1 (call_fs _ _) => apply at_most_call_fs
      | |- emits_at_most _ 1 (match ?x with _ => _ end) =>
        destruct x; counts_one
      | |- emits_at_most _ 1 (if ?x then _ else _) => destruct x; counts_one
      end ].

(** X9. [solveCaptcha] does not retry: whatever the page and the
    libraries do, one call of it downloads at most one clip, sends at most
    one recording to the recogniser and fills the response field at most
    once. *)
Theorem solveCaptcha_no_retry (w : World) :
  emits_at_most is_download 1 (solveCaptcha w) /\
  emits_at_most is_recognition 1 (solveCaptcha w) /\
  emits_at_most is_fill 1 (solveCaptcha w).
Proof.
  unfold_solver. repeat split; counts_one.
Qed.

(** On the good page there is one of each. *)
Example solveCaptcha_one_of_each :
  let evs := trace (solveCaptcha (scripted fireball_page) init).2 in
  count_events is_download evs = 1%nat /\
  count_events is_recognition evs = 1%nat /\
  count_events is_fill evs = 1%nat.
Proof. vm_compute. auto. Qed.

(** ** The files [solveCaptcha] may remove *)

Lemma mp3_path_is_temp_file (w : World) (s : state) :
  temp_file w (mp3_path_of w s).
Proof.
  exists (1 + Z.of_N (w_entropy w s) mod (1000 - 1)).
  split; [|left; reflexivity].
  pose proof (Z.mod_pos_bound (Z.of_N (w_entropy w s)) (1000 - 1)). lia.
Qed.

Lemma wav_path_is_temp_file (w : World) (s : state) :
  temp_file w (wav_path_of w s).
Proof.
  exists (1 + Z.of_N (w_entropy w (log (ERandrange 1 1000) s))
              mod (1000 - 1)).
  split; [|right; reflexivity].
  pose proof (Z.mod_pos_bound
                (Z.of_N (w_entropy w (log (ERandrange 1 1000) s)))
                (1000 - 1)). lia.
Qed.

Lemma process_audio_challenge_removes_temp_only (w : World) (url : string) :
  emits (removes_temp_only w) (_process_audio_challenge w url).
Proof.
  intros s. rewrite process_audio_challenge_unfold.
  assert (Hrun : emits (removes_only (mp3_path_of w s) (wav_path_of w s))
                   (try_finally
                      (transcribe w url (mp3_path_of w s) (wav_path_of w s))
                      (cleanup w (mp3_path_of w s) (wav_path_of w s)))).
  { unfold transcribe, cleanup. cbn [for_each]. unfold remove_if_exists.
    unfold_api. repeat emits_step; simpl; auto. }
  destruct (Hrun (paths_chosen s)) as (evs & Htr & Hevs).
  exists (ERandrange 1 1000 :: ERandrange 1 1000 :: evs).
  rewrite Htr. unfold paths_chosen. simpl. rewrite <- !app_assoc.
  split; [reflexivity|].
  repeat (constructor; [exact I|]).
  eapply Forall_impl; [exact Hevs|].
  intros [] He; try exact I. simpl in *.
  destruct He as [-> | ->];
    [apply mp3_path_is_temp_file|apply wav_path_is_temp_file].
Qed.

(** X10. The only files [solveCaptcha] ever asks to remove are named
    [<n>.mp3] or [<n>.wav], with [n] from 1 to 999, in the temporary
    directory: whatever happens, no other path is passed to [os.remove]. *)
Theorem solveCaptcha_removes_temp_only (w : World) :
  emits (removes_temp_only w) (solveCaptcha w).
Proof.
  unfold solveCaptcha, click_checkbox, open_audio_challenge, audio_attempt,
    fetch_transcription, submit_response, is_solved, is_detected.
  unfold_api.
  repeat first
    [ apply process_audio_challenge_removes_temp_only
    | emits_step ];
    exact I.
Qed.

(** ** The files and the page *)

Section KeepsFiles.

Context {A B : Type}.

Lemma keeps_files_ret (a : A) : keeps_files (ret a).
Proof. intros s. reflexivity. Qed.

Lemma keeps_files_raise (e : exn) : keeps_files (raise e : M A).
Proof. intros s. reflexivity. Qed.

Lemma keeps_files_call (e : event) (answer : state -> result A) :
  keeps_files (call e answer).
Proof. intros s. reflexivity. Qed.

Lemma keeps_files_bind (m : M A) (k : A -> M B) :
  keeps_files m -> (forall a, keeps_files (k a)) -> keeps_files (bind m k).
Proof.
  intros Hm Hk s. unfold bind. specialize (Hm s).
  destruct (m s) as [[a|e] s1]; simpl in *; [|exact Hm].
  rewrite Hk. exact Hm.
Qed.

Lemma keeps_files_try_except (catches : exn -> bool)
    (m : M A) (h : exn -> M A) :
  keeps_files m -> (forall e, keeps_files (h e)) ->
  keeps_files (try_except catches m h).
Proof.
  intros Hm Hh s. unfold try_except. specialize (Hm s).
  destruct (m s) as [[a|e] s1]; simpl in *; [exact Hm|].
  destruct (catches e); [|exact Hm]. rewrite Hh. exact Hm.
Qed.

End KeepsFiles.

Ltac keeps_files_step :=
  match goal with
  | |- keeps_files (bind _ _) => apply keeps_files_bind; [|intros ?]
  | |- keeps_files (try_except _ _ _) =>
    apply keeps_files_try_except; [|intros ?]
  | |- keeps_files (ret _) => apply keeps_files_ret
  | |- keeps_files (raise _) => apply keeps_files_raise
  | |- keeps_files (call _ _) => apply keeps_files_call
  | |- keeps_files (match ?x with _ => _ end) => destruct x
  | |- keeps_files (if ?x then _ else _) => destruct x
  end.

Lemma click_checkbox_keeps_files (w : World) : keeps_files (click_checkbox w).
Proof. unfold click_checkbox. unfold_api. repeat keeps_files_step. Qed.

Lemma is_solved_keeps_files (w : World) : keeps_files (is_solved w).
Proof. unfold is_solved. unfold_api. repeat keeps_files_step. Qed.

Lemma open_audio_challenge_keeps_files (w : World) :
  keeps_files (open_audio_challenge w).
Proof. unfold open_audio_challenge. unfold_api. repeat keeps_files_step. Qed.

Lemma is_detected_keeps_files (w : World) : keeps_files (is_detected w).
Proof. unfold is_detected. unfold_api. repeat keeps_files_step. Qed.

Lemma submit_response_keeps_files (w : World) (fr : frame) (text : string) :
  keeps_files (submit_response w fr text).
Proof.
  unfold submit_response.
  repeat first [apply is_solved_keeps_files | unfold_api; keeps_files_step].
Qed.

(** X11. [solveCaptcha] changes the files through its one call of the
    transcription step and in no other way.  When it ends, the files are
    those it started with; or it reached its [try] block with the files
    it started with, found the audio element and a non-empty source URL,
    and the files are those the transcription step left. *)
Theorem solveCaptcha_files_only_by_transcription (w : World) (s : state) :
  fs (solveCaptcha w s).2 = fs s \/
  exists fr s4 el url,
    reaches_audio_attempt w s fr s4 /\
    fs s4 = fs s /\
    w_frame_wait_for_selector w s4 fr (get_selector "audio_source")
      (Some TIMEOUT_STANDARD) StateAttached = Ok (Some el) /\
    w_get_attribute w (at_src_read s4 fr) el "src" = Ok (Some url) /\
    url <> "" /\
    fs (solveCaptcha w s).2 =
    fs (_process_audio_challenge w url (at_transcription s4 fr el)).2.
Proof.
  pose proof (click_checkbox_keeps_files w s) as Hfs1.
  destruct (click_checkbox w s) as [r1 s1] eqn:Hclick. simpl in Hfs1.
  pose proof (is_solved_keeps_files w s1) as Hfs2.
  destruct (is_solved w s1) as [r2 s2] eqn:Hsolved. simpl in Hfs2.
  pose proof (open_audio_challenge_keeps_files w s2) as Hfs3.
  destruct (open_audio_challenge w s2) as [r3 s3] eqn:Hopen. simpl in Hfs3.
  pose proof (is_detected_keeps_files w s3) as Hfs4.
  destruct (is_detected w s3) as [r4 s4] eqn:Hdet. simpl in Hfs4.
  assert (Hrun : solveCaptcha w s =
    match r1 with
    | Raise e => (Raise e, s1)
    | Ok _ =>
      match r2 with
      | Raise e => (Raise e, s2)
      | Ok true => (Ok tt, s2)
      | Ok false =>
        match r3 with
        | Raise e => (Raise e, s3)
        | Ok fr =>
          match r4 with
          | Raise e => (Raise e, s4)
          | Ok true => (Raise (Exception "Captcha detected bot behavior"), s4)
          | Ok false =>
            try_except isinstance_Exception (audio_attempt w fr)
              (fun e => raise (AudioChallengeFailed e)) s4
          end
        end
      end
    end).
  { unfold solveCaptcha. unfold bind at 1. rewrite Hclick.
    destruct r1 as [[]|e1]; [|reflexivity].
    unfold bind at 1. rewrite Hsolved.
    destruct r2 as [[|]|e2]; [reflexivity| |reflexivity].
    unfold bind at 1. rewrite Hopen.
    destruct r3 as [fr|e3]; [|reflexivity].
    unfold bind at 1. rewrite Hdet.
    destruct r4 as [[|]|e4]; reflexivity. }
  rewrite Hrun. clear Hrun.
  destruct r1 as [[]|e1]; [|left; exact Hfs1].
  destruct r2 as [[|]|e2]; [left; simpl; congruence| |left; simpl; congruence].
  destruct r3 as [fr|e3]; [|left; simpl; congruence].
  destruct r4 as [[|]|e4]; [left; simpl; congruence| |left; simpl; congruence].
  assert (Hreach : reaches_audio_attempt w s fr s4).
  { exists s3. split; [|exact Hdet]. exists s1, s2. auto. }
  assert (Hstart : fs s4 = fs s) by congruence.
  assert (Hfinal : fs (try_except isinstance_Exception (audio_attempt w fr)
                         (fun e => raise (AudioChallengeFailed e)) s4).2
                   = fs (audio_attempt w fr s4).2).
  { unfold try_except, raise.
    destruct (audio_attempt w fr s4) as [[[]|e] s5]; [reflexivity|].
    destruct (isinstance_Exception e); reflexivity. }
  rewrite Hfinal. clear Hfinal.
  unfold audio_attempt, fetch_transcription, at_transcription, at_src_read.
  unfold_api. unfold_monad. simpl.
  destruct (w_frame_wait_for_selector _ _ _ _ _ _) as [[el|]|e] eqn:Hel;
    simpl; [|left; exact Hstart|left; exact Hstart].
  destruct (w_get_attribute _ _ _ _) as [[[|c url]|]|e] eqn:Hsrc;
    simpl; [left; exact Hstart| |left; exact Hstart|left; exact Hstart].
  right. exists fr, s4, el, (String c url).
  split; [exact Hreach|]. split; [exact Hstart|]. split; [exact Hel|].
  split; [exact Hsrc|]. split; [discriminate|].
  destruct (_process_audio_challenge w (String c url) _) as [[text|e] s7];
    [|reflexivity].
  apply (submit_response_keeps_files w fr text s7).
Qed.

(** The page solved by the click alone: the files are those the run
    started with, a file of somebody else included. *)
Lemma solveCaptcha_files_only_by_transcription_witness :
  fs (solveCaptcha (scripted solved_page) with_foreign_file).2
  = fs with_foreign_file.
Proof.
  destruct (solveCaptcha_files_only_by_transcription
              (scripted solved_page) with_foreign_file)
    as [Hsame|(fr & s4 & el & url & (s3 & (s1 & s2 & Hclick & Hsolved & _) & _)
               & _)].
  - exact Hsame.
  - exfalso.
    assert (Hs1 : s1 = (click_checkbox (scripted solved_page)
                          with_foreign_file).2)
      by (rewrite Hclick; reflexivity).
    subst s1. vm_compute in Hsolved. discriminate Hsolved.
Defined.
